(** * Travel buddy tools: a shallow embedding of [multi-agent/agent.py]

    The three tools of the agent ([get_weather], [get_current_time],
    [get_travel_info]) are embedded as functions in a small state-and-exception
    monad.  Python text is a list of Unicode code points, a Python [dict] literal
    is an association list in insertion order, and the external collaborators
    (geocoder, HTTP client, timezone database, clock) are variables of the
    section that act on an abstract world. *)

From Stdlib Require Import List String Ascii Bool NArith ZArith Lia.
From Stdlib Require Import Floats.SpecFloat DecimalString DecimalPos.
Import ListNotations.

Set Implicit Arguments.
Set Warnings "-register-all".

(** ** Python text *)

Definition codepoint := N.
Definition str := list codepoint.

(** An ASCII literal of the source, as code points. *)
Definition lit (s : string) : str := map N_of_ascii (list_ascii_of_string s).
Arguments lit s%_string : simpl never.

Fixpoint str_eqb (a b : str) : bool :=
  match a, b with
  | [], [] => true
  | x :: a', y :: b' => N.eqb x y && str_eqb a' b'
  | _, _ => false
  end.

Fixpoint startswith (s p : str) {struct p} : bool :=
  match p, s with
  | [], _ => true
  | x :: p', y :: s' => N.eqb x y && startswith s' p'
  | _ :: _, [] => false
  end.

(** [str_in a b] is Python's [a in b] on two strings. *)
Fixpoint str_in (a b : str) : bool :=
  startswith b a ||
  match b with
  | [] => false
  | _ :: b' => str_in a b'
  end.

(** [a] occurs in [b] as a contiguous run of code points. *)
Definition substring (a b : str) : Prop := exists l r, b = l ++ a ++ r.

(** [sep.join(parts)] *)
Fixpoint join (sep : str) (parts : list str) : str :=
  match parts with
  | [] => []
  | [p] => p
  | p :: rest => p ++ sep ++ join sep rest
  end.

Definition is_ascii (c : codepoint) : bool := N.ltb c 128.

Definition ascii_lower (c : codepoint) : codepoint :=
  if N.leb 65 c && N.leb c 90 then (c + 32)%N else c.

(** ** Python values, dictionaries and exceptions *)

(** The values a JSON document or a tool argument can hold. *)
Inductive pyval :=
| PNone
| PBool (b : bool)
| PInt (z : Z)
| PFloat (f : spec_float)
| PStr (s : str)
| PList (l : list pyval)
| PDict (d : list (str * pyval)).

(** A [dict] with text keys, in insertion order. *)
Definition dict (V : Type) := list (str * V).

Fixpoint dict_get {V} (k : str) (d : dict V) : option V :=
  match d with
  | [] => None
  | (k', v) :: d' => if str_eqb k k' then Some v else dict_get k d'
  end.

(** [k in d] *)
Definition dict_mem {V} (k : str) (d : dict V) : bool :=
  match dict_get k d with Some _ => true | None => false end.

(** [d.keys()] *)
Definition dict_keys {V} (d : dict V) : list str := map fst d.

(** What a handler can tell about an exception: whether it is a
    [requests.exceptions.RequestException], some other [Exception], or a
    [BaseException] outside [Exception] (such as [KeyboardInterrupt]). *)
Inductive exn_class := RequestException | OtherException | BaseExceptionOnly.

Record exn := mkExn { exn_cls : exn_class; exn_str : str }.

Definition is_RequestException (e : exn) : bool :=
  match exn_cls e with RequestException => true | _ => false end.

Definition is_Exception (e : exn) : bool :=
  match exn_cls e with BaseExceptionOnly => false | _ => true end.

Inductive outcome (A : Type) :=
| Ret (a : A)
| Raise (e : exn).
Arguments Ret {A} a.
Arguments Raise {A} e.

(** The ways a builtin operation of the interpreter fails in these tools.  All
    of them raise subclasses of [Exception]. *)
Inductive failure :=
| NoAttribute (v : pyval) (name : str)
| MissingKey (k : str)
| NotContainer (v : pyval)
| NotSubscriptable (v : pyval)
| BadFormat (v : pyval).

(** The dictionary every tool returns. *)
Definition tool_result := dict str.

Definition success_result (report : str) : tool_result :=
  [(lit "status", lit "success"); (lit "report", report)].

Definition error_result (error_message : str) : tool_result :=
  [(lit "status", lit "error"); (lit "error_message", error_message)].

(** The shape the tools promise: the status is success and there is a report
    and no error_message, or the status is error and there is an error_message
    and no report. *)
Definition result_invariant (r : tool_result) : Prop :=
  (dict_get (lit "status") r = Some (lit "success") /\
   dict_mem (lit "report") r = true /\ dict_mem (lit "error_message") r = false)
  \/
  (dict_get (lit "status") r = Some (lit "error") /\
   dict_mem (lit "error_message") r = true /\ dict_mem (lit "report") r = false).

(** A geocoded place: [location.latitude], [location.longitude]. *)
Record Location := mkLocation { latitude : spec_float; longitude : spec_float }.

(** ** Number formatting *)

(** The decimal numeral of a natural number. *)
Definition decimal (n : N) : str := lit (NilEmpty.string_of_uint (N.to_uint n)).

(** The integer nearest to [n / d], ties going to the even one. *)
Definition round_half_even (n d : N) : N :=
  let q := (n / d)%N in
  let r := (n mod d)%N in
  match (2 * r ?= d)%N with
  | Lt => q
  | Gt => (q + 1)%N
  | Eq => if N.even q then q else (q + 1)%N
  end.

(** Ten times [m * 2^e], rounded to an integer. *)
Definition tenths (m : positive) (e : Z) : N :=
  match e with
  | Z0 => (10 * Npos m)%N
  | Zpos p => (10 * Npos m * 2 ^ Npos p)%N
  | Zneg p => round_half_even (10 * Npos m) (2 ^ Npos p)
  end.

Definition minus_sign (negative : bool) : str :=
  if negative then lit "-" else [].

Definition fixed1 (negative : bool) (t : N) : str :=
  minus_sign negative ++ decimal (t / 10) ++ lit "." ++ decimal (t mod 10).

(** [format(f, ".1f")] for a float: the exact binary value, correctly rounded
    to one digit after the point. *)
Definition float_format_1f (f : spec_float) : str :=
  match f with
  | S754_zero s => fixed1 s 0
  | S754_infinity s => minus_sign s ++ lit "inf"
  | S754_nan => lit "nan"
  | S754_finite s m e => fixed1 s (tenths m e)
  end.

(** [float(z)] for an [int]: the nearest binary64 value, or an infinity where
    the interpreter raises [OverflowError]. *)
Definition float_of_int (z : Z) : spec_float := binary_normalize 53 1024 z 0 false.

Definition is_finite (f : spec_float) : bool :=
  match f with
  | S754_zero _ | S754_finite _ _ _ => true
  | _ => false
  end.

(** The float that [format(v, ".1f")] prints, for the values it accepts: a
    float as it is, an [int] or [bool] converted ([None] where the conversion
    overflows or the value is no number). *)
Definition as_float (v : pyval) : option spec_float :=
  match v with
  | PFloat f => Some f
  | PInt z => if is_finite (float_of_int z) then Some (float_of_int z) else None
  | PBool b => Some (float_of_int (if b then 1 else 0))
  | _ => None
  end.

Definition is_digit (c : codepoint) : Prop := (48 <= c <= 57)%N.

(** A numeral with exactly one digit after the point. *)
Definition one_decimal_place (s : str) : Prop :=
  exists (negative : bool) (int_part : str) (d : codepoint),
    s = minus_sign negative ++ int_part ++ [46%N; d] /\
    int_part <> [] /\ Forall is_digit int_part /\ is_digit d.

(** ** Stand-ins for the collaborators

    Collaborators that answer at once and leave the world as it is; used to run
    the tools on concrete inputs. *)
Module Sample.

Definition unicode_lower (s : str) : str := s.

Definition py_repr (v : pyval) : str :=
  match v with
  | PNone => lit "None"
  | PBool true => lit "True"
  | PBool false => lit "False"
  | PInt z => minus_sign (Z.ltb z 0) ++ decimal (Z.abs_N z)
  | PFloat f => float_format_1f f
  | _ => lit "..."
  end.

(** [type(v).__name__] *)
Definition type_name (v : pyval) : str :=
  match v with
  | PNone => lit "NoneType"
  | PBool _ => lit "bool"
  | PInt _ => lit "int"
  | PFloat _ => lit "float"
  | PStr _ => lit "str"
  | PList _ => lit "list"
  | PDict _ => lit "dict"
  end.

Definition failure_text (f : failure) : str :=
  match f with
  | NoAttribute v name =>
      lit "'" ++ type_name v ++ lit "' object has no attribute '" ++ name ++ lit "'"
  | MissingKey k => lit "'" ++ k ++ lit "'"
  | NotContainer v => lit "argument of type '" ++ type_name v ++ lit "' is not iterable"
  | NotSubscriptable v => lit "'" ++ type_name v ++ lit "' object is not subscriptable"
  | BadFormat (PStr _) => lit "Unknown format code 'f' for object of type 'str'"
  | BadFormat (PInt _) => lit "int too large to convert to float"
  | BadFormat v =>
      lit "unsupported format string passed to " ++ type_name v ++ lit ".__format__"
  end.

Definition answer {W A} (a : A) (w : W) : outcome A * W := (Ret a, w).

Definition Nominatim {W} (user_agent : str) : W -> outcome unit * W := answer tt.

Definition paris : Location :=
  mkLocation (S754_finite false 6876090543936717 (-47)) (S754_finite false 5295613578947765 (-51)).

Definition geocode_none {W} (g : unit) (query : pyval) : W -> outcome (option Location) * W :=
  answer None.
Definition geocode_paris {W} (g : unit) (query : pyval) : W -> outcome (option Location) * W :=
  answer (Some paris).

(** A geocoder that finds the place only while the world is online. *)
Definition geocode_if_online (g : unit) (query : pyval) (online : bool)
  : outcome (option Location) * bool :=
  (Ret (if online then Some paris else None), online).

(** The HTTP client answers with [body] as the parsed JSON document. *)
Definition requests_get {W} (body : pyval) (url : str) (params : dict pyval) (timeout : Z)
  : W -> outcome pyval * W :=
  answer body.
Definition raise_for_status {W} (response : pyval) : W -> outcome unit * W := answer tt.
Definition response_json {W} (response : pyval) : W -> outcome pyval * W := answer response.

Definition TimezoneFinder {W} : W -> outcome unit * W := answer tt.
Definition timezone_at {W} (tf : unit) (lng lat : spec_float) : W -> outcome (option str) * W :=
  answer (Some (lit "Europe/Paris")).
Definition ZoneInfo {W} (name : str) : W -> outcome str * W := answer name.
Definition datetime_now {W} (tz : str) : W -> outcome str * W := answer tz.
Definition strftime {W} (now : str) (format : str) : W -> outcome str * W :=
  answer (lit "2025-01-01 12:00:00 CET+0100").

(** [{"current_weather": {}}] *)
Definition body_without_fields : pyval := PDict [(lit "current_weather", PDict [])].

(** [{"current_weather": {"temperature": 21.3, "windspeed": 12, "weathercode": 3}}] *)
Definition body_complete : pyval :=
  PDict [(lit "current_weather",
          PDict [(lit "temperature", PFloat (S754_finite false 5995719667974963 (-48)));
                 (lit "windspeed", PInt 12);
                 (lit "weathercode", PInt 3)])].

(** [{"current_weather": {"temperature": "warm", "windspeed": 12, "weathercode": 3}}] *)
Definition body_text_temperature : pyval :=
  PDict [(lit "current_weather",
          PDict [(lit "temperature", PStr (lit "warm"));
                 (lit "windspeed", PInt 12);
                 (lit "weathercode", PInt 3)])].

(** [{"current_weather": {"temperature": NaN, "windspeed": 12, "weathercode": 3}}] *)
Definition body_nan_temperature : pyval :=
  PDict [(lit "current_weather",
          PDict [(lit "temperature", PFloat S754_nan);
                 (lit "windspeed", PInt 12);
                 (lit "weathercode", PInt 3)])].

(** Collaborators that fail. *)
Definition fails {W A} (cls : exn_class) (message : string) (w : W) : outcome A * W :=
  (Raise (mkExn cls (lit message)), w).

(** The HTTP client times out: a [requests.exceptions.RequestException]. *)
Definition requests_get_timeout {W} (url : str) (params : dict pyval) (timeout : Z)
  : W -> outcome pyval * W :=
  fails RequestException "Read timed out. (read timeout=10)".

(** The geocoding service is unreachable: an exception of geopy, no
    [RequestException]. *)
Definition geocode_unavailable {W} (g : unit) (query : pyval)
  : W -> outcome (option Location) * W :=
  fails OtherException "Service not available".

(** The user interrupts the geocoder: [KeyboardInterrupt]. *)
Definition geocode_interrupted {W} (g : unit) (query : pyval)
  : W -> outcome (option Location) * W :=
  fails BaseExceptionOnly "".

(** The timezone finder knows no zone at these coordinates. *)
Definition timezone_at_nowhere {W} (tf : unit) (lng lat : spec_float)
  : W -> outcome (option str) * W :=
  answer None.

(** The zone database has no such key: [ZoneInfoNotFoundError]. *)
Definition ZoneInfo_missing {W} (name : str) : W -> outcome str * W :=
  fails OtherException "'No time zone found with key Europe/Paris'".

(** [{"hourly": {}}] *)
Definition body_without_current_weather : pyval := PDict [(lit "hourly", PDict [])].

(** [{"current_weather": {"temperature": 21.3, "windspeed": 12}}] *)
Definition body_without_weathercode : pyval :=
  PDict [(lit "current_weather",
          PDict [(lit "temperature", PFloat (S754_finite false 5995719667974963 (-48)));
                 (lit "windspeed", PInt 12)])].

End Sample.


(** ** The tools *)

Section Tools.

(** The state outside the program: network, clock, file system. *)
Variable World : Type.

(** A computation that may read or change the world and may raise. *)
Definition M (A : Type) : Type := World -> outcome A * World.

Definition ret {A} (a : A) : M A := fun w => (Ret a, w).

Definition raise {A} (e : exn) : M A := fun w => (Raise e, w).

Definition bind {A B} (m : M A) (k : A -> M B) : M B :=
  fun w =>
    match m w with
    | (Ret a, w') => k a w'
    | (Raise e, w') => (Raise e, w')
    end.

(** [try: body except ...]: [handlers e] is the body of the first clause that
    matches [e], if one does. *)
Definition try_except {A} (body : M A) (handlers : exn -> option (M A)) : M A :=
  fun w =>
    match body w with
    | (Ret a, w') => (Ret a, w')
    | (Raise e, w') =>
        match handlers e with
        | Some h => h w'
        | None => (Raise e, w')
        end
    end.

Notation "x <- m ;; k" := (bind m (fun x => k))
  (at level 61, m at next level, right associativity).
Notation "m ;;; k" := (bind m (fun _ => k))
  (at level 61, right associativity).

(** *** Builtins of the interpreter *)

(** [str.lower] on text that is not pure ASCII (full Unicode case mapping). *)
Variable unicode_lower : str -> str.
(** [repr(v)] *)
Variable py_repr : pyval -> str.
(** The message of the exception a failed builtin operation raises. *)
Variable failure_text : failure -> str.

Definition fail {A} (f : failure) : M A :=
  raise (mkExn OtherException (failure_text f)).

(** [s.lower()] *)
Definition lower (s : str) : str :=
  if forallb is_ascii s then map ascii_lower s else unicode_lower s.

(** [v.lower()]: only text has the method. *)
Definition method_lower (v : pyval) : M str :=
  match v with
  | PStr s => ret (lower s)
  | _ => fail (NoAttribute v (lit "lower"))
  end.

(** [str(v)], which is also what [f"{v}"] inserts. *)
Definition py_str (v : pyval) : str :=
  match v with
  | PStr s => s
  | _ => py_repr v
  end.

(** [d[k]] on a dictionary. *)
Definition getitem {V} (d : dict V) (k : str) : M V :=
  match dict_get k d with
  | Some v => ret v
  | None => fail (MissingKey k)
  end.

(** [k in v] for a text [k] and any value [v]. *)
Definition contains (k : str) (v : pyval) : M bool :=
  match v with
  | PDict d => ret (dict_mem k d)
  | PList l =>
      ret (existsb (fun x => match x with PStr s => str_eqb s k | _ => false end) l)
  | PStr s => ret (str_in k s)
  | _ => fail (NotContainer v)
  end.

(** [v[k]] for a text [k] and any value [v]. *)
Definition subscript (v : pyval) (k : str) : M pyval :=
  match v with
  | PDict d => getitem d k
  | _ => fail (NotSubscriptable v)
  end.

(** [f"{v:.1f}"] *)
Definition format_1f (v : pyval) : M str :=
  match as_float v with
  | Some f => ret (float_format_1f f)
  | None => fail (BadFormat v)
  end.

(** *** Collaborators *)

Variable Geolocator : Type.
Variable Nominatim : str -> M Geolocator.
Variable geocode : Geolocator -> pyval -> M (option Location).

Variable Response : Type.
Variable requests_get : str -> dict pyval -> Z -> M Response.
Variable raise_for_status : Response -> M unit.
Variable response_json : Response -> M pyval.

Variable Finder : Type.
Variable TimezoneFinder : M Finder.
Variable timezone_at : Finder -> spec_float -> spec_float -> M (option str).

Variable TzInfo : Type.
Variable ZoneInfo : str -> M TzInfo.
Variable DateTime : Type.
Variable datetime_now : TzInfo -> M DateTime.
Variable strftime : DateTime -> str -> M str.

(** *** get_weather *)

Definition degree_C : str := [194; 176; 67]%N.

Definition get_weather (city : pyval) : M tool_result :=
  try_except
    (geolocator <- Nominatim (lit "weather_app") ;;
     location <- geocode geolocator city ;;
     match location with
     | None =>
         ret (error_result (lit "Could not find the city: " ++ py_str city ++ lit "."))
     | Some location =>
         let url := lit "https://api.open-meteo.com/v1/forecast" in
         let params :=
           [(lit "latitude", PFloat (latitude location));
            (lit "longitude", PFloat (longitude location));
            (lit "current_weather", PBool true)] in
         response <- requests_get url params 10 ;;
         raise_for_status response ;;;
         data <- response_json response ;;
         present <- contains (lit "current_weather") data ;;
         if negb present then
           ret (error_result (lit "Weather data not available for " ++ py_str city ++ lit "."))
         else
           weather <- subscript data (lit "current_weather") ;;
           temperature_c <- subscript weather (lit "temperature") ;;
           wind_speed <- subscript weather (lit "windspeed") ;;
           weather_code <- subscript weather (lit "weathercode") ;;
           temperature_text <- format_1f temperature_c ;;
           let report :=
             lit "The current temperature in " ++ py_str city ++ lit " is "
               ++ temperature_text ++ degree_C ++ lit " "
               ++ lit "with a wind speed of " ++ py_str wind_speed ++ lit " km/h. "
               ++ lit "Weather code: " ++ py_str weather_code ++ lit "." in
           ret (success_result report)
     end)
    (fun e =>
       if is_RequestException e then
         Some (ret (error_result (lit "Request error: " ++ exn_str e)))
       else if is_Exception e then
         Some (ret (error_result (lit "An unexpected error occurred: " ++ exn_str e)))
       else None).

(** *** get_current_time *)

Definition get_current_time (city : pyval) : M tool_result :=
  try_except
    (geolocator <- Nominatim (lit "city_time_app") ;;
     tf <- TimezoneFinder ;;
     location <- geocode geolocator city ;;
     match location with
     | None =>
         ret (error_result (lit "Could not find the city: " ++ py_str city ++ lit "."))
     | Some location =>
         timezone_name <- timezone_at tf (longitude location) (latitude location) ;;
         match timezone_name with
         | None | Some [] =>
             ret (error_result
                    (lit "Could not determine the timezone for " ++ py_str city ++ lit "."))
         | Some timezone_name =>
             tz <- ZoneInfo timezone_name ;;
             now <- datetime_now tz ;;
             formatted <- strftime now (lit "%Y-%m-%d %H:%M:%S %Z%z") ;;
             let report := lit "The current time in " ++ py_str city ++ lit " is " ++ formatted in
             ret (success_result report)
         end
     end)
    (fun e => if is_Exception e then Some (ret (error_result (exn_str e))) else None).

(** *** get_travel_info *)

Definition travel_data : dict (dict str) :=
  [ (lit "london",
      [ (lit "power outlets", lit "Type G (three rectangular pins). Standard voltage 230V, frequency 50Hz.");
        (lit "culture", lit "A culture of politeness, orderly queues, afternoon tea, and pub culture. Greet with 'excuse me' or 'sorry' when interacting. Respect personal space.");
        (lit "transportation", lit "Extensive public transportation (Tube, bus). Oyster card or contactless payment is recommended. Iconic black cabs.") ]);
    (lit "tokyo",
      [ (lit "power outlets", lit "Types A and B (two or three flat pins). Standard voltage 100V, frequency 50Hz or 60Hz (depending on the region).");
        (lit "culture", lit "Highly values politeness, order, and cleanliness. Do not tip. Remove shoes in homes and some restaurants. Respect queues.");
        (lit "transportation", lit "Highly efficient train and metro system. The Japan Rail Pass can be cost-effective. Be mindful of rush hour.") ]);
    (lit "new york",
      [ (lit "power outlets", lit "Types A and B (two or three flat pins). Standard voltage 120V, frequency 60Hz.");
        (lit "culture", lit "Fast-paced, diverse, and direct. Don't hesitate to speak up. Tipping is common in restaurants and services. Rich theater and art scene.");
        (lit "transportation", lit "24-hour metro (subway) system. Yellow cabs. Walking is a popular way to explore.") ]);
    (lit "paris",
      [ (lit "power outlets", lit "Type E (two round pins with a grounding hole). Standard voltage 230V, frequency 50Hz.");
        (lit "culture", lit "Values art, fashion, and cuisine. Greet with 'Bonjour' or 'Bonsoir'. Enjoy coffee at cafes and picnics in parks. Elegance is appreciated.");
        (lit "transportation", lit "The Metro is very efficient. T+ tickets for bus, metro, and tram. Walking is the best way to see the sights.") ]);
    (lit "surabaya",
      [ (lit "power outlets", lit "Types C and F (two round pins). Standard voltage 230V, frequency 50Hz.");
        (lit "culture", lit "Surabayans are known to be friendly and direct. Local culinary delights (rujak cingur, lontong balap). Uses Indonesian and Javanese languages.");
        (lit "transportation", lit "Public transport like the Suroboyo Bus. Taxis and online ride-hailing are very popular. Traffic can be dense.") ]);
    (lit "ponorogo",
      [ (lit "power outlets", lit "Types C and F (two round pins). Standard voltage 230V, frequency 50Hz.");
        (lit "culture", lit "Ponorogo dikenal sebagai kota Reog. Local culinary delights (nasi pecel, dawet jabung. Uses Indonesian and Javanese languages.");
        (lit "transportation", lit "Public transport like the Suroboyo Bus. Taxis and online ride-hailing are very popular. Traffic can be dense.") ]) ].

(** The test of the loop body: the requested text occurs in the lower-cased key,
    or the lower-cased key occurs in the requested text. *)
Definition key_matches (info_type_lower key : str) : bool :=
  str_in info_type_lower (lower key) || str_in (lower key) info_type_lower.

(** The [for key in city_info.keys()] loop with its [break]:
    [found_info_key] when the loop ends. *)
Fixpoint find_info_key (keys : list str) (info_type_lower : str) : option str :=
  match keys with
  | [] => None
  | key :: rest =>
      if key_matches info_type_lower key then Some key
      else find_info_key rest info_type_lower
  end.

Definition get_travel_info (city info_type : pyval) : M tool_result :=
  city_lower <- method_lower city ;;
  info_type_lower <- method_lower info_type ;;
  try_except
    (if negb (dict_mem city_lower travel_data) then
       ret (error_result
              (lit "Sorry, I don't have specific travel information for " ++ py_str city
                 ++ lit " yet. You can try major cities like London, Tokyo, New York, or Paris."))
     else
       city_info <- getitem travel_data city_lower ;;
       if dict_mem info_type_lower city_info then
         fact <- getitem city_info info_type_lower ;;
         let report :=
           lit "For " ++ py_str info_type ++ lit " in " ++ py_str city ++ lit ": " ++ fact in
         ret (success_result report)
       else
         let found_info_key := find_info_key (dict_keys city_info) info_type_lower in
         match found_info_key with
         | Some (c :: key) =>
             fact <- getitem city_info (c :: key) ;;
             let report :=
               lit "For " ++ py_str info_type ++ lit " in " ++ py_str city ++ lit ": " ++ fact in
             ret (success_result report)
         | Some [] | None =>
             let available_info := join (lit ", ") (dict_keys city_info) in
             ret (error_result
                    (lit "Sorry, I don't have information about '" ++ py_str info_type
                       ++ lit "' for " ++ py_str city
                       ++ lit ". Available information includes: " ++ available_info ++ lit "."))
         end)
    (fun e =>
       if is_Exception e then
         Some (ret (error_result
                      (lit "An error occurred while fetching travel information: " ++ exn_str e)))
       else None).

(** *** Vocabulary of the statements *)

(** The categories every city of the table has, in table order. *)
Definition category_keys : list str :=
  [lit "power outlets"; lit "culture"; lit "transportation"].

(** The facts the table holds for a lower-case city name. *)
Definition city_facts (city_lower : str) : dict str :=
  match dict_get city_lower travel_data with
  | Some city_info => city_info
  | None => []
  end.

(** [returns m P]: whenever [m] returns a value, the value satisfies [P]. *)
Definition returns {A} (m : M A) (P : A -> Prop) : Prop :=
  forall (w w' : World) (a : A), m w = (Ret a, w') -> P a.

(** The request get_weather sends for a place. *)
Definition forecast_url : str := lit "https://api.open-meteo.com/v1/forecast".

Definition forecast_params (location : Location) : dict pyval :=
  [(lit "latitude", PFloat (latitude location));
   (lit "longitude", PFloat (longitude location));
   (lit "current_weather", PBool true)].

(** The collaborator calls of get_weather in the order the code makes them:
    [weather_calls city w data w'] when all of them return, the last one with
    the parsed body [data]. *)
Inductive weather_calls (city : pyval) (w : World) (data : pyval) (w' : World) : Prop :=
| weather_calls_intro (geolocator : Geolocator) (location : Location) (response : Response)
    (w1 w2 w3 w4 : World) :
    Nominatim (lit "weather_app") w = (Ret geolocator, w1) ->
    geocode geolocator city w1 = (Ret (Some location), w2) ->
    requests_get forecast_url (forecast_params location) 10 w2 = (Ret response, w3) ->
    raise_for_status response w3 = (Ret tt, w4) ->
    response_json response w4 = (Ret data, w') ->
    weather_calls city w data w'.

(** [weather_raises city w e w']: one of the collaborator calls of get_weather
    raises [e], the calls before it having returned. *)
Inductive weather_raises (city : pyval) (w : World) (e : exn) (w' : World) : Prop :=
| raises_in_weather_Nominatim :
    Nominatim (lit "weather_app") w = (Raise e, w') ->
    weather_raises city w e w'
| raises_in_weather_geocode (geolocator : Geolocator) (w1 : World) :
    Nominatim (lit "weather_app") w = (Ret geolocator, w1) ->
    geocode geolocator city w1 = (Raise e, w') ->
    weather_raises city w e w'
| raises_in_requests_get (geolocator : Geolocator) (location : Location) (w1 w2 : World) :
    Nominatim (lit "weather_app") w = (Ret geolocator, w1) ->
    geocode geolocator city w1 = (Ret (Some location), w2) ->
    requests_get forecast_url (forecast_params location) 10 w2 = (Raise e, w') ->
    weather_raises city w e w'
| raises_in_raise_for_status (geolocator : Geolocator) (location : Location)
    (response : Response) (w1 w2 w3 : World) :
    Nominatim (lit "weather_app") w = (Ret geolocator, w1) ->
    geocode geolocator city w1 = (Ret (Some location), w2) ->
    requests_get forecast_url (forecast_params location) 10 w2 = (Ret response, w3) ->
    raise_for_status response w3 = (Raise e, w') ->
    weather_raises city w e w'
| raises_in_response_json (geolocator : Geolocator) (location : Location)
    (response : Response) (w1 w2 w3 w4 : World) :
    Nominatim (lit "weather_app") w = (Ret geolocator, w1) ->
    geocode geolocator city w1 = (Ret (Some location), w2) ->
    requests_get forecast_url (forecast_params location) 10 w2 = (Ret response, w3) ->
    raise_for_status response w3 = (Ret tt, w4) ->
    response_json response w4 = (Raise e, w') ->
    weather_raises city w e w'.

(** The first three collaborator calls of get_current_time:
    [time_located city w tf location w'] when the geocoder is built, the
    timezone finder is built and the geocoder finds [location]. *)
Inductive time_located (city : pyval) (w : World) (tf : Finder) (location : Location)
    (w' : World) : Prop :=
| time_located_intro (geolocator : Geolocator) (w1 w2 : World) :
    Nominatim (lit "city_time_app") w = (Ret geolocator, w1) ->
    TimezoneFinder w1 = (Ret tf, w2) ->
    geocode geolocator city w2 = (Ret (Some location), w') ->
    time_located city w tf location w'.

(** [time_raises city w e w']: one of the collaborator calls of
    get_current_time raises [e], the calls before it having returned. *)
Inductive time_raises (city : pyval) (w : World) (e : exn) (w' : World) : Prop :=
| raises_in_time_Nominatim :
    Nominatim (lit "city_time_app") w = (Raise e, w') ->
    time_raises city w e w'
| raises_in_TimezoneFinder (geolocator : Geolocator) (w1 : World) :
    Nominatim (lit "city_time_app") w = (Ret geolocator, w1) ->
    TimezoneFinder w1 = (Raise e, w') ->
    time_raises city w e w'
| raises_in_time_geocode (geolocator : Geolocator) (tf : Finder) (w1 w2 : World) :
    Nominatim (lit "city_time_app") w = (Ret geolocator, w1) ->
    TimezoneFinder w1 = (Ret tf, w2) ->
    geocode geolocator city w2 = (Raise e, w') ->
    time_raises city w e w'
| raises_in_timezone_at (tf : Finder) (location : Location) (w3 : World) :
    time_located city w tf location w3 ->
    timezone_at tf (longitude location) (latitude location) w3 = (Raise e, w') ->
    time_raises city w e w'
| raises_in_ZoneInfo (tf : Finder) (location : Location) (c : codepoint) (name : str)
    (w3 w4 : World) :
    time_located city w tf location w3 ->
    timezone_at tf (longitude location) (latitude location) w3 = (Ret (Some (c :: name)), w4) ->
    ZoneInfo (c :: name) w4 = (Raise e, w') ->
    time_raises city w e w'
| raises_in_datetime_now (tf : Finder) (location : Location) (c : codepoint) (name : str)
    (tz : TzInfo) (w3 w4 w5 : World) :
    time_located city w tf location w3 ->
    timezone_at tf (longitude location) (latitude location) w3 = (Ret (Some (c :: name)), w4) ->
    ZoneInfo (c :: name) w4 = (Ret tz, w5) ->
    datetime_now tz w5 = (Raise e, w') ->
    time_raises city w e w'
| raises_in_strftime (tf : Finder) (location : Location) (c : codepoint) (name : str)
    (tz : TzInfo) (now : DateTime) (w3 w4 w5 w6 : World) :
    time_located city w tf location w3 ->
    timezone_at tf (longitude location) (latitude location) w3 = (Ret (Some (c :: name)), w4) ->
    ZoneInfo (c :: name) w4 = (Ret tz, w5) ->
    datetime_now tz w5 = (Ret now, w6) ->
    strftime now (lit "%Y-%m-%d %H:%M:%S %Z%z") w6 = (Raise e, w') ->
    time_raises city w e w'.

(** What the catch-all clause of get_weather returns for a failed builtin
    operation. *)
Definition unexpected_error (f : failure) : tool_result :=
  error_result (lit "An unexpected error occurred: " ++ failure_text f).

(** ** Facts about text and dictionaries *)

Lemma str_eqb_eq (a b : str) : str_eqb a b = true <-> a = b.
Proof.
  revert b; induction a as [|x a IH]; intros [|y b]; simpl; split; intro H;
    try reflexivity; try discriminate.
  - apply andb_true_iff in H as [Hx Hab].
    apply N.eqb_eq in Hx. apply IH in Hab. now subst.
  - injection H as -> ->. rewrite N.eqb_refl. now apply IH.
Qed.

Lemma str_eqb_refl (a : str) : str_eqb a a = true.
Proof. now apply str_eqb_eq. Qed.

Lemma startswith_spec (s p : str) : startswith s p = true <-> exists r, s = p ++ r.
Proof.
  revert s; induction p as [|x p IH]; intros s; simpl.
  - split; [intros _; now exists s | reflexivity].
  - destruct s as [|y s].
    + split; [discriminate | intros [r Hr]; discriminate].
    + rewrite andb_true_iff, N.eqb_eq, IH. split.
      * intros [-> [r ->]]. now exists r.
      * intros [r Hr]. injection Hr as -> ->. split; [reflexivity | now exists r].
Qed.

(** [a in b] holds exactly when [a] occurs in [b]. *)
Lemma str_in_spec (a b : str) : str_in a b = true <-> substring a b.
Proof.
  unfold substring. induction b as [|y b IH].
  - simpl. rewrite orb_false_r, startswith_spec. split.
    + intros [r Hr]. now exists [], r.
    + intros [l [r Hlr]]. destruct l; [now exists r | discriminate].
  - cbn [str_in]. rewrite orb_true_iff, startswith_spec, IH. split.
    + intros [[r Hr] | [l [r Hlr]]].
      * now exists [], r.
      * exists (y :: l), r. now rewrite Hlr.
    + intros [[|z l] [r Hlr]].
      * left. now exists r.
      * right. injection Hlr as _ ->. now exists l, r.
Qed.

Lemma str_in_false (a b : str) : str_in a b = false <-> ~ substring a b.
Proof.
  rewrite <- str_in_spec. destruct (str_in a b); split; congruence.
Qed.

Lemma substring_refl (a : str) : substring a a.
Proof. exists [], []. now rewrite app_nil_r. Qed.

Lemma substring_nil (b : str) : substring [] b.
Proof. now exists [], b. Qed.

Lemma dict_get_In {V} (k : str) (d : dict V) (v : V) :
  dict_get k d = Some v -> In (k, v) d.
Proof.
  induction d as [|[k' v'] d IH]; simpl; [discriminate|].
  destruct (str_eqb k k') eqn:E.
  - intros [= ->]. apply str_eqb_eq in E as ->. now left.
  - intros H. right. now apply IH.
Qed.

Lemma dict_get_None {V} (k : str) (d : dict V) :
  dict_get k d = None <-> ~ In k (dict_keys d).
Proof.
  induction d as [|[k' v'] d IH]; simpl.
  - split; [intros _ [] | reflexivity].
  - destruct (str_eqb k k') eqn:E.
    + apply str_eqb_eq in E as ->. split; [discriminate | intros H; exfalso; auto].
    + rewrite IH. split.
      * intros H [<- | Hin]; [now rewrite str_eqb_refl in E | auto].
      * intros H Hin. auto.
Qed.

(** On pure ASCII text, [lower] is the ASCII case mapping. *)
Lemma lower_ascii (s : str) : forallb is_ascii s = true -> lower s = map ascii_lower s.
Proof. intros H. unfold lower. now rewrite H. Qed.

(** ** Facts about the travel table *)

(** Every city of the table has the same three categories, in the same order. *)
Lemma travel_data_keys (city_lower : str) (city_info : dict str) :
  dict_get city_lower travel_data = Some city_info ->
  dict_keys city_info = category_keys.
Proof.
  intros H. apply dict_get_In in H.
  unfold travel_data in H. simpl in H.
  repeat (destruct H as [H | H]; [injection H as _ <-; reflexivity|]).
  destruct H.
Qed.

(** The category keys are lower-case already. *)
Lemma lower_category_key (k : str) : In k category_keys -> lower k = k.
Proof.
  intros H. simpl in H.
  repeat (destruct H as [<- | H]; [reflexivity|]). destruct H.
Qed.

Lemma category_key_nonempty (k : str) : In k category_keys -> k <> [].
Proof.
  intros H. simpl in H.
  repeat (destruct H as [<- | H]; [discriminate|]). destruct H.
Qed.

(** The loop test, in terms of occurrence. *)
Lemma key_matches_spec (info_type_lower k : str) :
  In k category_keys ->
  (key_matches info_type_lower k = true <->
   substring info_type_lower k \/ substring k info_type_lower).
Proof.
  intros Hk. unfold key_matches.
  rewrite (lower_category_key Hk), orb_true_iff, !str_in_spec. reflexivity.
Qed.

(** The loop stops at the first key that passes the test. *)
Lemma find_info_key_first (info_type_lower : str) (before after : list str) (K : str) :
  (forall k, In k before -> key_matches info_type_lower k = false) ->
  key_matches info_type_lower K = true ->
  find_info_key (before ++ K :: after) info_type_lower = Some K.
Proof.
  induction before as [|k before IH]; intros Hbefore HK; simpl.
  - now rewrite HK.
  - rewrite (Hbefore k (or_introl eq_refl)). apply IH; auto.
    intros k' Hk'. apply Hbefore. now right.
Qed.

(** The loop finds nothing when no key passes the test. *)
Lemma find_info_key_none (info_type_lower : str) (keys : list str) :
  (forall k, In k keys -> key_matches info_type_lower k = false) ->
  find_info_key keys info_type_lower = None.
Proof.
  induction keys as [|k keys IH]; intros H; simpl; [reflexivity|].
  rewrite (H k (or_introl eq_refl)). apply IH. intros k' Hk'. apply H. now right.
Qed.

Lemma dict_get_key {V} (k : str) (d : dict V) :
  In k (dict_keys d) -> exists v, dict_get k d = Some v.
Proof.
  intros H. destruct (dict_get k d) eqn:E; [now eexists|].
  apply dict_get_None in E. contradiction.
Qed.

Lemma In_middle {A} (x : A) (l r : list A) : In x (l ++ x :: r).
Proof. apply in_or_app. right. now left. Qed.

(** ** get_travel_info on text arguments *)

Ltac unfold_travel :=
  unfold get_travel_info, bind, try_except, method_lower, ret, dict_mem, getitem.

(** Step 2 of the matching policy: the city is not in the table. *)
Lemma travel_unknown_city (city info_type : str) (w : World) :
  dict_get (lower city) travel_data = None ->
  get_travel_info (PStr city) (PStr info_type) w =
    (Ret (error_result
            (lit "Sorry, I don't have specific travel information for " ++ city
               ++ lit " yet. You can try major cities like London, Tokyo, New York, or Paris.")),
     w).
Proof.
  intros H. unfold_travel. rewrite H. reflexivity.
Qed.

(** Step 3: the lower-cased category is a key of the city's facts. *)
Lemma travel_exact_match (city info_type : str) (city_info : dict str) (fact : str) (w : World) :
  dict_get (lower city) travel_data = Some city_info ->
  dict_get (lower info_type) city_info = Some fact ->
  get_travel_info (PStr city) (PStr info_type) w =
    (Ret (success_result (lit "For " ++ info_type ++ lit " in " ++ city ++ lit ": " ++ fact)), w).
Proof.
  intros Hcity Hkey. unfold_travel. rewrite Hcity. cbn. rewrite Hkey. reflexivity.
Qed.

(** Step 4: the loop found the key [K]. *)
Lemma travel_found_key (city info_type : str) (city_info : dict str) (K fact : str) (w : World) :
  dict_get (lower city) travel_data = Some city_info ->
  dict_get (lower info_type) city_info = None ->
  find_info_key (dict_keys city_info) (lower info_type) = Some K ->
  dict_get K city_info = Some fact ->
  get_travel_info (PStr city) (PStr info_type) w =
    (Ret (success_result (lit "For " ++ info_type ++ lit " in " ++ city ++ lit ": " ++ fact)), w).
Proof.
  intros Hcity Hkey Hfind Hfact.
  assert (HK : K <> []).
  { apply category_key_nonempty. rewrite <- (travel_data_keys _ Hcity).
    clear - Hfind. induction (dict_keys city_info) as [|k keys IH]; [discriminate|].
    simpl in Hfind. destruct (key_matches (lower info_type) k).
    - injection Hfind as ->. now left.
    - right. auto. }
  unfold_travel. rewrite Hcity. cbn. rewrite Hkey, Hfind.
  destruct K as [|c key]; [congruence|]. rewrite Hfact. reflexivity.
Qed.

(** Step 5: the loop found nothing. *)
Lemma travel_no_key (city info_type : str) (city_info : dict str) (w : World) :
  dict_get (lower city) travel_data = Some city_info ->
  dict_get (lower info_type) city_info = None ->
  find_info_key (dict_keys city_info) (lower info_type) = None ->
  get_travel_info (PStr city) (PStr info_type) w =
    (Ret (error_result
            (lit "Sorry, I don't have information about '" ++ info_type
               ++ lit "' for " ++ city
               ++ lit ". Available information includes: "
               ++ join (lit ", ") (dict_keys city_info) ++ lit ".")),
     w).
Proof.
  intros Hcity Hkey Hfind. unfold_travel. rewrite Hcity. cbn. rewrite Hkey, Hfind.
  reflexivity.
Qed.

(** ** The matching policy of get_travel_info *)

(** C1.  When the lower-cased city is a key of the travel table and the
    lower-cased info_type is no exact category key, the city's keys are scanned
    in table order (power outlets, culture, transportation) and the result is
    success with the fact of the first key [K] such that the lower-cased
    info_type occurs in [K] or [K] occurs in the lower-cased info_type: the keys
    before [K] in the order do not count, whatever comes after.  In particular
    the request (Paris, outlets) answers with the Type E power-outlet fact. *)
Theorem get_travel_info_fuzzy_first_match :
  (forall (city info_type : str) (city_info : dict str) (w : World),
     dict_get (lower city) travel_data = Some city_info ->
     dict_get (lower info_type) city_info = None ->
     dict_keys city_info = [lit "power outlets"; lit "culture"; lit "transportation"] /\
     forall (before after : list str) (K fact : str),
       dict_keys city_info = before ++ K :: after ->
       (forall k, In k before ->
                  ~ substring (lower info_type) k /\ ~ substring k (lower info_type)) ->
       substring (lower info_type) K \/ substring K (lower info_type) ->
       dict_get K city_info = Some fact ->
       get_travel_info (PStr city) (PStr info_type) w =
         (Ret (success_result
                 (lit "For " ++ info_type ++ lit " in " ++ city ++ lit ": " ++ fact)), w))
  /\
  (forall w : World,
     get_travel_info (PStr (lit "Paris")) (PStr (lit "outlets")) w =
       (Ret (success_result
               (lit "For outlets in Paris: Type E (two round pins with a grounding hole). Standard voltage 230V, frequency 50Hz.")),
        w)).
Proof.
  split.
  - intros city info_type city_info w Hcity Hkey.
    pose proof (travel_data_keys _ Hcity) as Hkeys. split; [exact Hkeys|].
    intros before after K fact Hsplit Hbefore HK Hfact.
    apply travel_found_key with (city_info := city_info) (K := K); auto.
    rewrite Hsplit. rewrite Hsplit in Hkeys.
    apply find_info_key_first.
    + intros k Hk. destruct (key_matches (lower info_type) k) eqn:E; [|reflexivity].
      apply key_matches_spec in E.
      * destruct (Hbefore k Hk) as [H1 H2]. destruct E; contradiction.
      * rewrite <- Hkeys. apply in_or_app. now left.
    + apply key_matches_spec; [|exact HK]. rewrite <- Hkeys. apply In_middle.
  - intros w.
    destruct (dict_get (lower (lit "Paris")) travel_data) as [city_info|] eqn:Hcity;
      [|discriminate].
    destruct (dict_get (lit "power outlets") city_info) as [fact|] eqn:Hfact;
      [|vm_compute in Hcity; injection Hcity as <-; discriminate].
    rewrite (@travel_found_key (lit "Paris") (lit "outlets") city_info (lit "power outlets") fact w Hcity).
    + vm_compute in Hcity. injection Hcity as <-.
      vm_compute in Hfact. injection Hfact as <-. reflexivity.
    + vm_compute in Hcity. injection Hcity as <-. reflexivity.
    + rewrite (travel_data_keys _ Hcity). reflexivity.
    + exact Hfact.
Qed.

(** C2.  When the lower-cased city is a key of the travel table and the
    lower-cased info_type is exactly a category key of that city, the result is
    success and the report is "For {info_type} in {city}: {fact}" with the
    caller's own spelling of info_type and city.  In particular (Tokyo, culture)
    gives a report that begins "For culture in Tokyo: Highly values politeness". *)
Theorem get_travel_info_exact_match :
  (forall (city info_type : str) (city_info : dict str) (fact : str) (w : World),
     dict_get (lower city) travel_data = Some city_info ->
     dict_get (lower info_type) city_info = Some fact ->
     get_travel_info (PStr city) (PStr info_type) w =
       (Ret (success_result
               (lit "For " ++ info_type ++ lit " in " ++ city ++ lit ": " ++ fact)), w))
  /\
  (forall w : World, exists rest : str,
     get_travel_info (PStr (lit "Tokyo")) (PStr (lit "culture")) w =
       (Ret (success_result (lit "For culture in Tokyo: Highly values politeness" ++ rest)), w)).
Proof.
  split.
  - intros. now apply travel_exact_match with (city_info := city_info).
  - intros w.
    exists (lit ", order, and cleanliness. Do not tip. Remove shoes in homes and some restaurants. Respect queues.").
    destruct (dict_get (lower (lit "Tokyo")) travel_data) as [city_info|] eqn:Hcity;
      [|discriminate].
    destruct (dict_get (lower (lit "culture")) city_info) as [fact|] eqn:Hfact;
      [|vm_compute in Hcity; injection Hcity as <-; discriminate].
    rewrite (travel_exact_match _ _ w Hcity Hfact).
    vm_compute in Hcity. injection Hcity as <-.
    vm_compute in Hfact. injection Hfact as <-. reflexivity.
Qed.

(** C3.  When the lower-cased city is no key of the travel table, the result is
    an error whatever info_type is; the message contains the city as the caller
    wrote it and proposes "London, Tokyo, New York, or Paris", although the
    table also holds Surabaya and Ponorogo.  (Berlin, culture) is such a case. *)
Theorem get_travel_info_unknown_city :
  (forall (city info_type : str) (w : World),
     dict_get (lower city) travel_data = None ->
     exists message : str,
       get_travel_info (PStr city) (PStr info_type) w = (Ret (error_result message), w) /\
       message =
         lit "Sorry, I don't have specific travel information for " ++ city
           ++ lit " yet. You can try major cities like London, Tokyo, New York, or Paris." /\
       substring city message /\
       substring (lit "London, Tokyo, New York, or Paris") message)
  /\
  dict_keys travel_data =
    [lit "london"; lit "tokyo"; lit "new york"; lit "paris"; lit "surabaya"; lit "ponorogo"]
  /\
  (forall w : World,
     get_travel_info (PStr (lit "Berlin")) (PStr (lit "culture")) w =
       (Ret (error_result
               (lit "Sorry, I don't have specific travel information for Berlin yet. You can try major cities like London, Tokyo, New York, or Paris.")),
        w)).
Proof.
  split; [|split].
  - intros city info_type w Hcity. eexists. split; [now apply travel_unknown_city|].
    split; [reflexivity|]. split.
    + exists (lit "Sorry, I don't have specific travel information for "),
        (lit " yet. You can try major cities like London, Tokyo, New York, or Paris.").
      reflexivity.
    + exists (lit "Sorry, I don't have specific travel information for " ++ city
                ++ lit " yet. You can try major cities like "), (lit ".").
      rewrite <- !app_assoc. reflexivity.
  - reflexivity.
  - intros w. now rewrite travel_unknown_city.
Qed.

(** C4.  When the lower-cased city is a key of the travel table and the
    lower-cased info_type neither equals one of the city's category keys nor
    occurs in one nor contains one, the result is an error whose message names
    the info_type as the caller wrote it and lists the city's categories joined
    by ", ".  (London, food) lists "power outlets, culture, transportation". *)
Theorem get_travel_info_unknown_category :
  (forall (city info_type : str) (city_info : dict str) (w : World),
     dict_get (lower city) travel_data = Some city_info ->
     (forall k, In k (dict_keys city_info) ->
                lower info_type <> k /\
                ~ substring (lower info_type) k /\ ~ substring k (lower info_type)) ->
     get_travel_info (PStr city) (PStr info_type) w =
       (Ret (error_result
               (lit "Sorry, I don't have information about '" ++ info_type
                  ++ lit "' for " ++ city
                  ++ lit ". Available information includes: "
                  ++ join (lit ", ") (dict_keys city_info) ++ lit ".")), w) /\
     join (lit ", ") (dict_keys city_info) = lit "power outlets, culture, transportation")
  /\
  (forall w : World,
     get_travel_info (PStr (lit "London")) (PStr (lit "food")) w =
       (Ret (error_result
               (lit "Sorry, I don't have information about 'food' for London. Available information includes: power outlets, culture, transportation.")),
        w)).
Proof.
  assert (General : forall (city info_type : str) (city_info : dict str) (w : World),
     dict_get (lower city) travel_data = Some city_info ->
     (forall k, In k (dict_keys city_info) -> key_matches (lower info_type) k = false) ->
     get_travel_info (PStr city) (PStr info_type) w =
       (Ret (error_result
               (lit "Sorry, I don't have information about '" ++ info_type
                  ++ lit "' for " ++ city
                  ++ lit ". Available information includes: "
                  ++ join (lit ", ") (dict_keys city_info) ++ lit ".")), w)).
  { intros city info_type city_info w Hcity Hnone.
    apply travel_no_key; auto.
    - apply dict_get_None. intros Hin.
      pose proof (Hnone _ Hin) as E. unfold key_matches in E.
      rewrite (travel_data_keys _ Hcity) in Hin.
      rewrite (lower_category_key Hin) in E.
      apply orb_false_iff in E as [E _]. apply str_in_false in E.
      apply E, substring_refl.
    - now apply find_info_key_none. }
  split.
  - intros city info_type city_info w Hcity Hnone. split.
    + apply General; auto. intros k Hk.
      destruct (key_matches (lower info_type) k) eqn:E; [|reflexivity].
      apply key_matches_spec in E.
      * destruct (Hnone k Hk) as (_ & H1 & H2). destruct E; contradiction.
      * now rewrite <- (travel_data_keys _ Hcity).
    + now rewrite (travel_data_keys _ Hcity).
  - intros w.
    destruct (dict_get (lower (lit "London")) travel_data) as [city_info|] eqn:Hcity;
      [|discriminate].
    rewrite (General _ (lit "food") _ w Hcity).
    + vm_compute in Hcity. injection Hcity as <-. reflexivity.
    + intros k Hk. rewrite (travel_data_keys _ Hcity) in Hk. simpl in Hk.
      repeat (destruct Hk as [<- | Hk]; [reflexivity|]). destruct Hk.
Qed.

(** C10.  When the lower-cased city is a key of the travel table and info_type
    is the empty text, the result is success with that city's "power outlets"
    fact: the empty text is no category key, but it occurs in every key, so the
    scan stops at the first key of the table order instead of reporting an
    unknown category. *)
Theorem get_travel_info_empty_info_type :
  forall (city : str) (city_info : dict str) (w : World),
    dict_get (lower city) travel_data = Some city_info ->
    dict_get (lower []) city_info = None /\
    (forall k, In k (dict_keys city_info) -> substring (lower []) k) /\
    exists fact : str,
      dict_get (lit "power outlets") city_info = Some fact /\
      get_travel_info (PStr city) (PStr []) w =
        (Ret (success_result (lit "For " ++ [] ++ lit " in " ++ city ++ lit ": " ++ fact)), w).
Proof.
  intros city city_info w Hcity.
  pose proof (travel_data_keys _ Hcity) as Hkeys.
  assert (Hnokey : dict_get (lower []) city_info = None).
  { apply dict_get_None. rewrite Hkeys. intros Hin.
    apply category_key_nonempty in Hin. now apply Hin. }
  split; [exact Hnokey|]. split; [intros k _; apply substring_nil|].
  destruct (@dict_get_key _ (lit "power outlets") city_info) as [fact Hfact].
  { rewrite Hkeys. now left. }
  exists fact. split; [exact Hfact|].
  apply travel_found_key with (city_info := city_info) (K := lit "power outlets"); auto.
  rewrite Hkeys. reflexivity.
Qed.

(** ** Totality and purity of get_travel_info *)

Lemma find_info_key_In (keys : list str) (info_type_lower K : str) :
  find_info_key keys info_type_lower = Some K -> In K keys.
Proof.
  induction keys as [|k keys IH]; simpl; [discriminate|].
  destruct (key_matches info_type_lower k).
  - intros [= ->]. now left.
  - intros H. right. now apply IH.
Qed.

(** On text arguments the call returns a result and leaves the world alone;
    which result depends on the arguments only. *)
Lemma get_travel_info_text_returns (city info_type : str) :
  exists r : tool_result,
    forall w : World, get_travel_info (PStr city) (PStr info_type) w = (Ret r, w).
Proof.
  destruct (dict_get (lower city) travel_data) as [city_info|] eqn:Hcity.
  - destruct (dict_get (lower info_type) city_info) as [fact|] eqn:Hkey.
    + eexists. intros w. eapply travel_exact_match; eassumption.
    + destruct (find_info_key (dict_keys city_info) (lower info_type)) as [K|] eqn:Hfind.
      * destruct (@dict_get_key _ K city_info) as [fact Hfact].
        { now apply find_info_key_In in Hfind. }
        eexists. intros w. eapply travel_found_key; eassumption.
      * eexists. intros w. eapply travel_no_key; eassumption.
  - eexists. intros w. eapply travel_unknown_city; eassumption.
Qed.

(** An argument that is no text makes [.lower()] raise before the [try]. *)
Lemma get_travel_info_non_text_city (city info_type : pyval) (w : World) :
  (forall s, city <> PStr s) ->
  get_travel_info city info_type w =
    (Raise (mkExn OtherException (failure_text (NoAttribute city (lit "lower")))), w).
Proof.
  intros H. unfold get_travel_info, bind, method_lower, fail, raise.
  destruct city; try reflexivity. now destruct (H s).
Qed.

Lemma get_travel_info_non_text_info_type (city : str) (info_type : pyval) (w : World) :
  (forall s, info_type <> PStr s) ->
  get_travel_info (PStr city) info_type w =
    (Raise (mkExn OtherException (failure_text (NoAttribute info_type (lit "lower")))), w).
Proof.
  intros H. unfold get_travel_info, bind, method_lower, fail, raise, ret.
  destruct info_type; try reflexivity. now destruct (H s).
Qed.

(** Whatever the arguments, the outcome does not depend on the world and the
    world is unchanged. *)
Lemma get_travel_info_pure (city info_type : pyval) :
  exists o : outcome tool_result,
    forall w : World, get_travel_info city info_type w = (o, w).
Proof.
  destruct city as [| | | |city| |];
    try (eexists; intros w; apply get_travel_info_non_text_city; discriminate).
  destruct info_type as [| | | |info_type| |];
    try (eexists; intros w; apply get_travel_info_non_text_info_type; discriminate).
  destruct (get_travel_info_text_returns city info_type) as [r Hr].
  now exists (Ret r).
Qed.

(** C9.  get_travel_info is deterministic: two calls with the same arguments
    give the same outcome whatever the state of the world at each call, and a
    call leaves the world as it found it, so that nothing a call does can
    change the answer of a later one. *)
Theorem get_travel_info_deterministic :
  forall (city info_type : pyval) (w1 w2 : World),
    fst (get_travel_info city info_type w1) = fst (get_travel_info city info_type w2) /\
    snd (get_travel_info city info_type w1) = w1.
Proof.
  intros city info_type w1 w2.
  destruct (get_travel_info_pure city info_type) as [o Ho].
  rewrite (Ho w1), (Ho w2). split; reflexivity.
Qed.

(** C6.  The two [.lower()] calls stand before the [try]: an argument that is
    no text (here [None]) makes the call raise AttributeError, which leaves
    the tool instead of becoming an error result.  On text arguments the call
    always returns a result. *)
Theorem get_travel_info_lower_outside_try :
  (forall (info_type : pyval) (w : World),
     get_travel_info PNone info_type w =
       (Raise (mkExn OtherException (failure_text (NoAttribute PNone (lit "lower")))), w))
  /\
  (forall (city : str) (w : World),
     get_travel_info (PStr city) PNone w =
       (Raise (mkExn OtherException (failure_text (NoAttribute PNone (lit "lower")))), w))
  /\
  (forall (city info_type : str) (w : World),
     exists r : tool_result, get_travel_info (PStr city) (PStr info_type) w = (Ret r, w)).
Proof.
  split; [|split].
  - intros info_type w. apply get_travel_info_non_text_city. discriminate.
  - intros city w. apply get_travel_info_non_text_info_type. discriminate.
  - intros city info_type w.
    destruct (get_travel_info_text_returns city info_type) as [r Hr]. now exists r.
Qed.


(** ** Facts about number formatting *)

Lemma lit_cons (c : ascii) (s : string) : lit (String c s) = N_of_ascii c :: lit s.
Proof. reflexivity. Qed.

Lemma string_of_uint_digits (u : Decimal.uint) :
  Forall is_digit (lit (NilEmpty.string_of_uint u)).
Proof.
  induction u; cbn [NilEmpty.string_of_uint]; [constructor|..];
    rewrite lit_cons;
    (constructor; [split; apply N.leb_le; reflexivity | assumption]).
Qed.

Lemma decimal_digits (n : N) : Forall is_digit (decimal n).
Proof. apply string_of_uint_digits. Qed.

Lemma decimal_nonempty (n : N) : decimal n <> [].
Proof.
  unfold decimal. destruct n as [|p]; [discriminate|].
  cbn [N.to_uint]. pose proof (Unsigned.to_uint_nonnil p) as H.
  destruct (Pos.to_uint p); [contradiction|..]; discriminate.
Qed.

Lemma decimal_one_digit (d : N) : (d < 10)%N -> decimal d = [(48 + d)%N].
Proof.
  intros H.
  assert (E : In d [0; 1; 2; 3; 4; 5; 6; 7; 8; 9]%N) by (simpl; lia).
  simpl in E. repeat (destruct E as [<- | E]; [reflexivity|]). destruct E.
Qed.

Lemma fixed1_one_decimal_place (negative : bool) (t : N) :
  one_decimal_place (fixed1 negative t).
Proof.
  assert (Hd : (t mod 10 < 10)%N) by (apply N.mod_lt; discriminate).
  exists negative, (decimal (t / 10)), (48 + t mod 10)%N. split; [|split; [|split]].
  - unfold fixed1. now rewrite (decimal_one_digit Hd).
  - apply decimal_nonempty.
  - apply decimal_digits.
  - unfold is_digit. revert Hd. generalize (t mod 10)%N. intros r Hr. lia.
Qed.

(** A finite float is printed with exactly one digit after the point. *)
Lemma float_format_1f_one_decimal_place (f : spec_float) :
  is_finite f = true -> one_decimal_place (float_format_1f f).
Proof.
  destruct f; simpl; intros H; try discriminate; apply fixed1_one_decimal_place.
Qed.

(** [round_half_even n d] is within one half of [n / d]. *)
Lemma round_half_even_nearest (n d : N) :
  (0 < d)%N ->
  (2 * n <= 2 * d * round_half_even n d + d /\ 2 * d * round_half_even n d <= 2 * n + d)%N.
Proof.
  intros Hd. unfold round_half_even.
  pose proof (N.div_mod n d ltac:(lia)) as E.
  pose proof (N.mod_lt n d ltac:(lia)) as L.
  set (q := (n / d)%N) in *. set (r := (n mod d)%N) in *.
  destruct (N.compare_spec (2 * r) d) as [C|C|C]; [destruct (N.even q)|..]; nia.
Qed.


(** ** get_weather and get_current_time *)

Lemma success_result_invariant (report : str) : result_invariant (success_result report).
Proof. left. repeat split. Qed.

Lemma error_result_invariant (message : str) : result_invariant (error_result message).
Proof. right. repeat split. Qed.

Lemma returns_ret {A} (a : A) (P : A -> Prop) : P a -> returns (ret a) P.
Proof. intros H w w' a' [= <- _]. exact H. Qed.

Lemma returns_fail {A} (f : failure) (P : A -> Prop) : returns (fail f) P.
Proof. intros w w' a. discriminate. Qed.

Lemma returns_bind {A B} (m : M A) (k : A -> M B) (P : B -> Prop) :
  (forall a, returns (k a) P) -> returns (bind m k) P.
Proof.
  intros H w w' b. unfold bind. destruct (m w) as [[a|e] w1]; [|discriminate].
  apply H.
Qed.

Lemma returns_try_except {A} (body : M A) (handlers : exn -> option (M A)) (P : A -> Prop) :
  returns body P ->
  (forall e h, handlers e = Some h -> returns h P) ->
  returns (try_except body handlers) P.
Proof.
  intros Hbody Hhandlers w w' a. unfold try_except.
  destruct (body w) as [[a'|e] w1] eqn:E.
  - intros [= <- _]. exact (Hbody _ _ _ E).
  - destruct (handlers e) as [h|] eqn:Eh; [|discriminate]. apply (Hhandlers _ _ Eh).
Qed.

Ltac returns_step :=
  first
    [ apply returns_ret;
      first [apply success_result_invariant | apply error_result_invariant]
    | apply returns_fail
    | apply returns_bind; intros ? ].

Lemma get_weather_result (city : pyval) : returns (get_weather city) result_invariant.
Proof.
  unfold get_weather. apply returns_try_except.
  - apply returns_bind; intros geolocator.
    apply returns_bind; intros [location|]; [|returns_step].
    apply returns_bind; intros response.
    apply returns_bind; intros _.
    apply returns_bind; intros data.
    apply returns_bind; intros present.
    destruct present; cbn [negb]; repeat returns_step.
  - intros e h.
    destruct (is_RequestException e); [|destruct (is_Exception e); [|discriminate]];
      intros [= <-]; returns_step.
Qed.

Lemma get_current_time_result (city : pyval) :
  returns (get_current_time city) result_invariant.
Proof.
  unfold get_current_time. apply returns_try_except.
  - do 2 returns_step.
    apply returns_bind; intros [location|]; [|returns_step].
    apply returns_bind; intros [[|c timezone_name]|]; repeat returns_step.
  - intros e h. destruct (is_Exception e); [|discriminate].
    intros [= <-]; returns_step.
Qed.

Lemma get_travel_info_result (city info_type : pyval) :
  returns (get_travel_info city info_type) result_invariant.
Proof.
  unfold get_travel_info.
  apply returns_bind; intros city_lower.
  apply returns_bind; intros info_type_lower.
  apply returns_try_except.
  - destruct (dict_mem city_lower travel_data); cbn [negb]; [|returns_step].
    apply returns_bind; intros city_info.
    destruct (dict_mem info_type_lower city_info); [repeat returns_step|].
    destruct (find_info_key (dict_keys city_info) info_type_lower) as [[|c key]|];
      repeat returns_step.
  - intros e h. destruct (is_Exception e); [|discriminate].
    intros [= <-]; returns_step.
Qed.

(** C5.  Every value one of the three tools returns has a status that is
    either success or error (the two differ); with status success it has a
    report and no error_message, with status error an error_message and no
    report. *)
Theorem tool_results_well_formed :
  forall (city info_type : pyval) (w w' : World) (r : tool_result),
    (get_weather city w = (Ret r, w') \/
     get_current_time city w = (Ret r, w') \/
     get_travel_info city info_type w = (Ret r, w')) ->
    result_invariant r /\ lit "success" <> lit "error".
Proof.
  intros city info_type w w' r H. split; [|discriminate].
  destruct H as [H | [H | H]].
  - exact (@get_weather_result city w w' r H).
  - exact (@get_current_time_result city w w' r H).
  - exact (@get_travel_info_result city info_type w w' r H).
Qed.

(** C7.  When the geocoder yields no location for the city, get_weather and
    get_current_time both return the error "Could not find the city: {city}.",
    which contains the city text as given. *)
Theorem city_not_found :
  (forall (city : str) (w w1 w2 : World) (geolocator : Geolocator),
     Nominatim (lit "weather_app") w = (Ret geolocator, w1) ->
     geocode geolocator (PStr city) w1 = (Ret None, w2) ->
     get_weather (PStr city) w =
       (Ret (error_result (lit "Could not find the city: " ++ city ++ lit ".")), w2))
  /\
  (forall (city : str) (w w1 w2 w3 : World) (geolocator : Geolocator) (tf : Finder),
     Nominatim (lit "city_time_app") w = (Ret geolocator, w1) ->
     TimezoneFinder w1 = (Ret tf, w2) ->
     geocode geolocator (PStr city) w2 = (Ret None, w3) ->
     get_current_time (PStr city) w =
       (Ret (error_result (lit "Could not find the city: " ++ city ++ lit ".")), w3))
  /\
  (forall city : str, substring city (lit "Could not find the city: " ++ city ++ lit ".")).
Proof.
  split; [|split].
  - intros city w w1 w2 geolocator Hgeolocator Hgeocode.
    unfold get_weather, try_except, bind. rewrite Hgeolocator, Hgeocode. reflexivity.
  - intros city w w1 w2 w3 geolocator tf Hgeolocator Hfinder Hgeocode.
    unfold get_current_time, try_except, bind.
    rewrite Hgeolocator, Hfinder, Hgeocode. reflexivity.
  - intros city. now exists (lit "Could not find the city: "), (lit ".").
Qed.

(** C8 (amended).  When geocoding succeeds, the HTTP request is answered with a
    good status, and the parsed body is an object whose "current_weather" member
    is an object with "temperature", "windspeed" and "weathercode" members, the
    temperature being a finite number, get_weather returns success; the report
    is one sentence with the temperature printed with exactly one digit after
    the point and followed by the degree sign and C, the wind speed followed by
    km/h, and the weather code. *)
Theorem get_weather_report :
  forall (city : str) (w w1 w2 w3 w4 w5 : World)
         (geolocator : Geolocator) (location : Location) (response : Response)
         (data weather : dict pyval) (temperature_c wind_speed weather_code : pyval)
         (temperature : spec_float),
    Nominatim (lit "weather_app") w = (Ret geolocator, w1) ->
    geocode geolocator (PStr city) w1 = (Ret (Some location), w2) ->
    requests_get (lit "https://api.open-meteo.com/v1/forecast")
      [(lit "latitude", PFloat (latitude location));
       (lit "longitude", PFloat (longitude location));
       (lit "current_weather", PBool true)] 10 w2 = (Ret response, w3) ->
    raise_for_status response w3 = (Ret tt, w4) ->
    response_json response w4 = (Ret (PDict data), w5) ->
    dict_get (lit "current_weather") data = Some (PDict weather) ->
    dict_get (lit "temperature") weather = Some temperature_c ->
    dict_get (lit "windspeed") weather = Some wind_speed ->
    dict_get (lit "weathercode") weather = Some weather_code ->
    as_float temperature_c = Some temperature ->
    is_finite temperature = true ->
    get_weather (PStr city) w =
      (Ret (success_result
              (lit "The current temperature in " ++ city ++ lit " is "
                 ++ float_format_1f temperature ++ degree_C ++ lit " with a wind speed of "
                 ++ py_str wind_speed ++ lit " km/h. Weather code: "
                 ++ py_str weather_code ++ lit ".")), w5)
    /\ one_decimal_place (float_format_1f temperature).
Proof.
  intros city w w1 w2 w3 w4 w5 geolocator location response data weather
    temperature_c wind_speed weather_code temperature
    Hgeolocator Hgeocode Hget Hstatus Hjson Hweather Htemperature Hwind Hcode Hfloat Hfinite.
  split; [|now apply float_format_1f_one_decimal_place].
  unfold get_weather, try_except, bind.
  rewrite Hgeolocator, Hgeocode, Hget, Hstatus, Hjson.
  unfold contains, subscript, getitem, format_1f, dict_mem, ret.
  rewrite Hweather. cbn [negb]. rewrite Htemperature, Hwind, Hcode, Hfloat.
  reflexivity.
Qed.

(** ** More on get_weather *)

Ltac run_calls :=
  repeat match goal with
         | H : _ = (_, _) |- _ => rewrite H; clear H
         end.

(** Destructs, in a hypothesis about a run, the innermost value a [match]
    inspects. *)
Ltac break_inner H :=
  match type of H with
  | context [match ?x with _ => _ end] =>
      lazymatch x with
      | context [match _ with _ => _ end] => fail
      | _ => destruct x eqn:?
      end
  end.

(** Closes the case of a run that raised or returned an error result, when the
    run is known to have returned success. *)
Ltac close_branch H Hstatus :=
  first
    [ discriminate H
    | injection H as <- <-; exfalso; vm_compute in Hstatus; discriminate Hstatus ].

(** X1.  When every collaborator call returns and the parsed body is an object
    without a "current_weather" member, get_weather returns the error
    "Weather data not available for {city}.". *)
Theorem get_weather_data_not_available :
  forall (city : str) (w w' : World) (data : dict pyval),
    weather_calls (PStr city) w (PDict data) w' ->
    dict_get (lit "current_weather") data = None ->
    get_weather (PStr city) w =
      (Ret (error_result (lit "Weather data not available for " ++ city ++ lit ".")), w').
Proof.
  intros city w w' data [geolocator location response w1 w2 w3 w4 H1 H2 H3 H4 H5] Hnone.
  unfold forecast_url, forecast_params in H3.
  unfold get_weather, try_except, bind. run_calls.
  unfold contains, dict_mem, ret. rewrite Hnone. reflexivity.
Qed.

(** X2.  When a collaborator call of get_weather raises a
    [requests.exceptions.RequestException] (the request times out, the status
    is an HTTP error, the body is no JSON), get_weather returns the error
    "Request error: {exception text}". *)
Theorem get_weather_request_error :
  forall (city : pyval) (w w' : World) (e : exn),
    weather_raises city w e w' ->
    is_RequestException e = true ->
    get_weather city w = (Ret (error_result (lit "Request error: " ++ exn_str e)), w').
Proof.
  intros city w w' e Hraises Hrequest.
  destruct Hraises;
    repeat match goal with
           | H : requests_get forecast_url _ _ _ = _ |- _ =>
               unfold forecast_url, forecast_params in H
           end;
    unfold get_weather, try_except, bind; run_calls; rewrite Hrequest; reflexivity.
Qed.

(** X3.  When a collaborator call of get_weather raises an [Exception] that is
    no [RequestException] (the geocoding service fails, for one), get_weather
    returns the error "An unexpected error occurred: {exception text}". *)
Theorem get_weather_unexpected_error :
  forall (city : pyval) (w w' : World) (e : exn),
    weather_raises city w e w' ->
    is_RequestException e = false ->
    is_Exception e = true ->
    get_weather city w =
      (Ret (error_result (lit "An unexpected error occurred: " ++ exn_str e)), w').
Proof.
  intros city w w' e Hraises Hrequest Hexception.
  destruct Hraises;
    repeat match goal with
           | H : requests_get forecast_url _ _ _ = _ |- _ =>
               unfold forecast_url, forecast_params in H
           end;
    unfold get_weather, try_except, bind; run_calls;
    rewrite Hrequest, Hexception; reflexivity.
Qed.

(** X4.  get_weather returns success only after every collaborator call has
    returned with a body that is an object whose "current_weather" member is an
    object with "temperature", "windspeed" and "weathercode" members, the
    temperature being a number; the report is then built from these three. *)
Theorem get_weather_success_only_if :
  forall (city : str) (w w' : World) (r : tool_result),
    get_weather (PStr city) w = (Ret r, w') ->
    dict_get (lit "status") r = Some (lit "success") ->
    exists (data weather : dict pyval) (temperature_c wind_speed weather_code : pyval)
           (temperature : spec_float),
      weather_calls (PStr city) w (PDict data) w' /\
      dict_get (lit "current_weather") data = Some (PDict weather) /\
      dict_get (lit "temperature") weather = Some temperature_c /\
      dict_get (lit "windspeed") weather = Some wind_speed /\
      dict_get (lit "weathercode") weather = Some weather_code /\
      as_float temperature_c = Some temperature /\
      r = success_result
            (lit "The current temperature in " ++ city ++ lit " is "
               ++ float_format_1f temperature ++ degree_C ++ lit " with a wind speed of "
               ++ py_str wind_speed ++ lit " km/h. Weather code: "
               ++ py_str weather_code ++ lit ".").
Proof.
  intros city w w' r H Hstatus.
  unfold get_weather, try_except, bind, contains, subscript, getitem, format_1f,
    dict_mem, fail, raise, ret in H.
  repeat (first [ break_inner H
                | match type of H with
                  | context [existsb ?f ?l] => destruct (existsb f l) eqn:?
                  end ];
          cbn beta iota delta [negb] in H; try close_branch H Hstatus).
  injection H as <- <-.
  match goal with H : raise_for_status _ _ = (Ret ?u, _) |- _ => destruct u end.
  do 6 eexists.
  split; [eapply weather_calls_intro; eassumption|].
  repeat (split; [eassumption|]). reflexivity.
Qed.

(** X5.  A "current_weather" member that is incomplete makes get_weather return
    the catch-all error, the members being read in the order temperature,
    windspeed, weathercode: the member is no object, or the first member it
    lacks is named by the KeyError, or the temperature is no number that can be
    formatted. *)
Theorem get_weather_incomplete_current_weather :
  forall (city : str) (w w' : World) (data : dict pyval) (current_weather : pyval),
    weather_calls (PStr city) w (PDict data) w' ->
    dict_get (lit "current_weather") data = Some current_weather ->
    ((forall weather, current_weather <> PDict weather) ->
     get_weather (PStr city) w =
       (Ret (unexpected_error (NotSubscriptable current_weather)), w'))
    /\
    (forall weather : dict pyval,
       current_weather = PDict weather ->
       (dict_get (lit "temperature") weather = None ->
        get_weather (PStr city) w =
          (Ret (unexpected_error (MissingKey (lit "temperature"))), w'))
       /\
       (dict_get (lit "temperature") weather <> None ->
        dict_get (lit "windspeed") weather = None ->
        get_weather (PStr city) w =
          (Ret (unexpected_error (MissingKey (lit "windspeed"))), w'))
       /\
       (dict_get (lit "temperature") weather <> None ->
        dict_get (lit "windspeed") weather <> None ->
        dict_get (lit "weathercode") weather = None ->
        get_weather (PStr city) w =
          (Ret (unexpected_error (MissingKey (lit "weathercode"))), w'))
       /\
       (forall temperature_c : pyval,
          dict_get (lit "temperature") weather = Some temperature_c ->
          dict_get (lit "windspeed") weather <> None ->
          dict_get (lit "weathercode") weather <> None ->
          as_float temperature_c = None ->
          get_weather (PStr city) w =
            (Ret (unexpected_error (BadFormat temperature_c)), w'))).
Proof.
  intros city w w' data current_weather
    [geolocator location response w1 w2 w3 w4 H1 H2 H3 H4 H5] Hmember.
  unfold forecast_url, forecast_params in H3.
  assert (Hrun : get_weather (PStr city) w =
    try_except
      (weather <- subscript (PDict data) (lit "current_weather") ;;
       temperature_c <- subscript weather (lit "temperature") ;;
       wind_speed <- subscript weather (lit "windspeed") ;;
       weather_code <- subscript weather (lit "weathercode") ;;
       temperature_text <- format_1f temperature_c ;;
       ret (success_result
              (lit "The current temperature in " ++ city ++ lit " is "
                 ++ temperature_text ++ degree_C ++ lit " "
                 ++ lit "with a wind speed of " ++ py_str wind_speed ++ lit " km/h. "
                 ++ lit "Weather code: " ++ py_str weather_code ++ lit ".")))
      (fun e =>
         if is_RequestException e then
           Some (ret (error_result (lit "Request error: " ++ exn_str e)))
         else if is_Exception e then
           Some (ret (error_result (lit "An unexpected error occurred: " ++ exn_str e)))
         else None) w').
  { unfold get_weather, try_except, bind. run_calls.
    unfold contains, dict_mem, ret. rewrite Hmember. reflexivity. }
  rewrite Hrun. clear Hrun H1 H2 H3 H4 H5.
  unfold unexpected_error, try_except, bind, subscript, getitem, format_1f, fail, raise, ret.
  rewrite Hmember. split.
  - intros Hobject. destruct current_weather; try reflexivity. now destruct (Hobject d).
  - intros weather ->. repeat split.
    + intros ->. reflexivity.
    + intros Ht ->. destruct (dict_get (lit "temperature") weather); [reflexivity|easy].
    + intros Ht Hw ->.
      destruct (dict_get (lit "temperature") weather); [|easy].
      destruct (dict_get (lit "windspeed") weather); [reflexivity|easy].
    + intros temperature_c -> Hw Hc ->.
      destruct (dict_get (lit "windspeed") weather); [|easy].
      destruct (dict_get (lit "weathercode") weather); [reflexivity|easy].
Qed.


(** ** More on get_current_time *)

(** X7.  When every collaborator call returns, with a timezone name that is not
    empty, get_current_time returns success with the report
    "The current time in {city} is {formatted}", the last part being what
    strftime printed for the pattern "%Y-%m-%d %H:%M:%S %Z%z". *)
Theorem get_current_time_report :
  forall (city : str) (w w3 w4 w5 w6 w' : World) (tf : Finder) (location : Location)
         (c : codepoint) (name : str) (tz : TzInfo) (now : DateTime) (formatted : str),
    time_located (PStr city) w tf location w3 ->
    timezone_at tf (longitude location) (latitude location) w3 = (Ret (Some (c :: name)), w4) ->
    ZoneInfo (c :: name) w4 = (Ret tz, w5) ->
    datetime_now tz w5 = (Ret now, w6) ->
    strftime now (lit "%Y-%m-%d %H:%M:%S %Z%z") w6 = (Ret formatted, w') ->
    get_current_time (PStr city) w =
      (Ret (success_result (lit "The current time in " ++ city ++ lit " is " ++ formatted)), w').
Proof.
  intros city w w3 w4 w5 w6 w' tf location c name tz now formatted
    [geolocator w1 w2 H1 H2 H3] Hzone Hinfo Hnow Hformat.
  unfold get_current_time, try_except, bind. run_calls. reflexivity.
Qed.

(** X8.  When the place is found but the timezone finder answers [None] or an
    empty name, get_current_time returns the error
    "Could not determine the timezone for {city}." and asks neither the zone
    database nor the clock. *)
Theorem get_current_time_no_timezone :
  forall (city : str) (w w3 w' : World) (tf : Finder) (location : Location)
         (timezone_name : option str),
    time_located (PStr city) w tf location w3 ->
    timezone_at tf (longitude location) (latitude location) w3 = (Ret timezone_name, w') ->
    timezone_name = None \/ timezone_name = Some [] ->
    get_current_time (PStr city) w =
      (Ret (error_result (lit "Could not determine the timezone for " ++ city ++ lit ".")), w').
Proof.
  intros city w w3 w' tf location timezone_name [geolocator w1 w2 H1 H2 H3] Hzone Hempty.
  unfold get_current_time, try_except, bind. run_calls.
  destruct Hempty as [-> | ->]; reflexivity.
Qed.

(** X9.  When a collaborator call of get_current_time raises an [Exception],
    get_current_time returns an error whose message is the text of the
    exception and nothing else. *)
Theorem get_current_time_error_is_exception_text :
  forall (city : pyval) (w w' : World) (e : exn),
    time_raises city w e w' ->
    is_Exception e = true ->
    get_current_time city w = (Ret (error_result (exn_str e)), w').
Proof.
  intros city w w' e Hraises Hexception.
  destruct Hraises;
    repeat match goal with
           | H : time_located _ _ _ _ _ |- _ => destruct H
           end;
    unfold get_current_time, try_except, bind; run_calls;
    rewrite Hexception; reflexivity.
Qed.

(** X10.  get_current_time returns success only after the place was found, the
    timezone finder gave a name that is not empty, and the zone database, the
    clock and strftime returned; the report ends with what strftime printed. *)
Theorem get_current_time_success_only_if :
  forall (city : str) (w w' : World) (r : tool_result),
    get_current_time (PStr city) w = (Ret r, w') ->
    dict_get (lit "status") r = Some (lit "success") ->
    exists (tf : Finder) (location : Location) (c : codepoint) (name : str)
           (tz : TzInfo) (now : DateTime) (formatted : str) (w3 w4 w5 w6 : World),
      time_located (PStr city) w tf location w3 /\
      timezone_at tf (longitude location) (latitude location) w3
        = (Ret (Some (c :: name)), w4) /\
      ZoneInfo (c :: name) w4 = (Ret tz, w5) /\
      datetime_now tz w5 = (Ret now, w6) /\
      strftime now (lit "%Y-%m-%d %H:%M:%S %Z%z") w6 = (Ret formatted, w') /\
      r = success_result (lit "The current time in " ++ city ++ lit " is " ++ formatted).
Proof.
  intros city w w' r H Hstatus.
  unfold get_current_time, try_except, bind, ret in H.
  repeat (break_inner H; cbn beta iota in H; try close_branch H Hstatus).
  injection H as <- <-.
  do 11 eexists.
  split; [eapply time_located_intro; eassumption|].
  repeat (split; [eassumption|]). reflexivity.
Qed.

(** X11.  No [Exception] leaves get_weather or get_current_time: when a call
    raises, the exception is outside the class [Exception] (KeyboardInterrupt
    and the like), which neither [except] clause names. *)
Theorem weather_and_time_raise_no_Exception :
  forall (city : pyval) (w w' : World) (e : exn),
    get_weather city w = (Raise e, w') \/ get_current_time city w = (Raise e, w') ->
    is_Exception e = false.
Proof.
  assert (Inv : forall (body : M tool_result) (handlers : exn -> option (M tool_result))
                       (w w' : World) (e : exn),
             (forall e0 h, handlers e0 = Some h -> exists r, h = ret r) ->
             try_except body handlers w = (Raise e, w') -> handlers e = None).
  { intros body handlers w w' e Hret. unfold try_except.
    destruct (body w) as [[r|e0] w0]; [discriminate|].
    destruct (handlers e0) as [h|] eqn:Eh.
    - destruct (Hret _ _ Eh) as [r ->]. discriminate.
    - now intros [= <- _]. }
  intros city w w' e [H | H]; apply Inv in H.
  - destruct (is_RequestException e); [discriminate|].
    now destruct (is_Exception e).
  - intros e0 h. destruct (is_RequestException e0); [|destruct (is_Exception e0)];
      intros [= <-]; eauto.
  - now destruct (is_Exception e).
  - intros e0 h. destruct (is_Exception e0); intros [= <-]; eauto.
Qed.

(** ** More on get_travel_info *)

Lemma find_info_key_matches (keys : list str) (info_type_lower K : str) :
  find_info_key keys info_type_lower = Some K -> key_matches info_type_lower K = true.
Proof.
  induction keys as [|k keys IH]; simpl; [discriminate|].
  destruct (key_matches info_type_lower k) eqn:E; [|exact IH].
  now intros [= <-].
Qed.

Lemma find_info_key_none_inv (keys : list str) (info_type_lower : str) :
  find_info_key keys info_type_lower = None ->
  forall k, In k keys -> key_matches info_type_lower k = false.
Proof.
  induction keys as [|k keys IH]; simpl; [intros _ k []|].
  destruct (key_matches info_type_lower k) eqn:E; [discriminate|].
  intros H k' [<- | Hk']; auto.
Qed.

(** X12.  The scan of the category keys, for any list of keys: it yields [K]
    exactly when [K] is in the list, passes the test, and no key before it
    does; it yields nothing exactly when no key of the list passes.  A key
    passes when the requested text occurs in the lower-cased key or the
    lower-cased key occurs in the requested text. *)
Theorem find_info_key_spec :
  forall (keys : list str) (info_type_lower : str),
    (forall K : str,
       find_info_key keys info_type_lower = Some K <->
       exists before after : list str,
         keys = before ++ K :: after /\
         (forall k, In k before -> key_matches info_type_lower k = false) /\
         key_matches info_type_lower K = true)
    /\
    (find_info_key keys info_type_lower = None <->
     forall k, In k keys -> key_matches info_type_lower k = false)
    /\
    (forall k : str,
       key_matches info_type_lower k = true <->
       substring info_type_lower (lower k) \/ substring (lower k) info_type_lower).
Proof.
  intros keys info_type_lower. split; [|split].
  - intros K. split.
    + induction keys as [|k keys IH]; simpl; [discriminate|].
      destruct (key_matches info_type_lower k) eqn:E.
      * intros [= <-]. exists [], keys. repeat split; [intros k' []|exact E].
      * intros H. destruct (IH H) as (before & after & -> & Hbefore & HK).
        exists (k :: before), after. repeat split; [|exact HK].
        intros k' [<- | Hk']; auto.
    + intros (before & after & -> & Hbefore & HK). now apply find_info_key_first.
  - split; [apply find_info_key_none_inv | apply find_info_key_none].
  - intros k. unfold key_matches. now rewrite orb_true_iff, !str_in_spec.
Qed.

(** What a call on text arguments returns, by cases on the two lookups. *)
Lemma get_travel_info_cases (city info_type : str) (w : World) :
  (dict_get (lower city) travel_data = None /\
   get_travel_info (PStr city) (PStr info_type) w =
     (Ret (error_result
             (lit "Sorry, I don't have specific travel information for " ++ city
                ++ lit " yet. You can try major cities like London, Tokyo, New York, or Paris.")),
      w))
  \/
  (exists (city_info : dict str) (k fact : str),
     dict_get (lower city) travel_data = Some city_info /\
     dict_get k city_info = Some fact /\
     (lower info_type = k \/
      dict_get (lower info_type) city_info = None /\
      find_info_key (dict_keys city_info) (lower info_type) = Some k) /\
     get_travel_info (PStr city) (PStr info_type) w =
       (Ret (success_result
               (lit "For " ++ info_type ++ lit " in " ++ city ++ lit ": " ++ fact)), w))
  \/
  (exists city_info : dict str,
     dict_get (lower city) travel_data = Some city_info /\
     dict_get (lower info_type) city_info = None /\
     find_info_key (dict_keys city_info) (lower info_type) = None /\
     get_travel_info (PStr city) (PStr info_type) w =
       (Ret (error_result
               (lit "Sorry, I don't have information about '" ++ info_type
                  ++ lit "' for " ++ city
                  ++ lit ". Available information includes: "
                  ++ join (lit ", ") (dict_keys city_info) ++ lit ".")), w)).
Proof.
  destruct (dict_get (lower city) travel_data) as [city_info|] eqn:Hcity.
  - right. destruct (dict_get (lower info_type) city_info) as [fact|] eqn:Hkey.
    + left. exists city_info, (lower info_type), fact.
      repeat split; auto. now apply travel_exact_match with (city_info := city_info).
    + destruct (find_info_key (dict_keys city_info) (lower info_type)) as [K|] eqn:Hfind.
      * left. destruct (@dict_get_key _ K city_info) as [fact Hfact].
        { now apply find_info_key_In in Hfind. }
        exists city_info, K, fact. repeat split; auto.
        now apply travel_found_key with (city_info := city_info) (K := K).
      * right. exists city_info. repeat split; auto. now apply travel_no_key.
  - left. split; [reflexivity|]. now apply travel_unknown_city.
Qed.

Lemma error_result_not_success (message : str) :
  dict_get (lit "status") (error_result message) <> Some (lit "success").
Proof. discriminate. Qed.

Lemma success_result_not_error (report : str) :
  dict_get (lit "status") (success_result report) <> Some (lit "error").
Proof. discriminate. Qed.

(** X13.  A success of get_travel_info always carries a fact of the requested
    city: the report is "For {info_type} in {city}: {fact}" where the table
    holds [fact] for the lower-cased city under a key that equals the
    lower-cased info_type, occurs in it, or contains it. *)
Theorem get_travel_info_success_sound :
  forall (city info_type : str) (w w' : World) (r : tool_result),
    get_travel_info (PStr city) (PStr info_type) w = (Ret r, w') ->
    dict_get (lit "status") r = Some (lit "success") ->
    exists (city_info : dict str) (k fact : str),
      dict_get (lower city) travel_data = Some city_info /\
      dict_get k city_info = Some fact /\
      (substring (lower info_type) k \/ substring k (lower info_type)) /\
      r = success_result (lit "For " ++ info_type ++ lit " in " ++ city ++ lit ": " ++ fact).
Proof.
  intros city info_type w w' r H Hstatus.
  destruct (get_travel_info_cases city info_type w)
    as [[_ E] | [(city_info & k & fact & Hcity & Hfact & Hk & E) | (city_info & _ & _ & _ & E)]];
    rewrite E in H; injection H as <- _;
    try (now apply error_result_not_success in Hstatus).
  exists city_info, k, fact. repeat split; auto.
  destruct Hk as [<- | [_ Hfind]].
  - left. apply substring_refl.
  - apply key_matches_spec.
    + rewrite <- (travel_data_keys _ Hcity). now apply find_info_key_In in Hfind.
    + now apply find_info_key_matches in Hfind.
Qed.

(** X14.  On text arguments an error of get_travel_info is one of two: the city
    is unknown, or the city is known and no category key equals, occurs in or
    contains the lower-cased info_type.  The message of the [except] clause
    never appears. *)
Theorem get_travel_info_errors_on_text :
  forall (city info_type : str) (w w' : World) (r : tool_result),
    get_travel_info (PStr city) (PStr info_type) w = (Ret r, w') ->
    dict_get (lit "status") r = Some (lit "error") ->
    ((dict_get (lower city) travel_data = None /\
      r = error_result
            (lit "Sorry, I don't have specific travel information for " ++ city
               ++ lit " yet. You can try major cities like London, Tokyo, New York, or Paris."))
     \/
     (exists city_info : dict str,
        dict_get (lower city) travel_data = Some city_info /\
        (forall k, In k (dict_keys city_info) ->
                   lower info_type <> k /\
                   ~ substring (lower info_type) k /\ ~ substring k (lower info_type)) /\
        r = error_result
              (lit "Sorry, I don't have information about '" ++ info_type
                 ++ lit "' for " ++ city
                 ++ lit ". Available information includes: power outlets, culture, transportation.")))
    /\
    (forall text : str,
       r <> error_result (lit "An error occurred while fetching travel information: " ++ text)).
Proof.
  intros city info_type w w' r H Hstatus.
  destruct (get_travel_info_cases city info_type w)
    as [[Hcity E] | [(city_info & k & fact & _ & _ & _ & E)
                    | (city_info & Hcity & Hkey & Hfind & E)]];
    rewrite E in H; injection H as <- _;
    try (now apply success_result_not_error in Hstatus).
  - split; [now left | intros text; discriminate].
  - split; [right | intros text; discriminate].
    pose proof (travel_data_keys _ Hcity) as Hkeys.
    exists city_info. split; [exact Hcity|]. split.
    + intros k Hk. split; [|split].
      * intros <-. apply dict_get_None in Hkey. contradiction.
      * intros Hsub.
        assert (E' : key_matches (lower info_type) k = true).
        { apply key_matches_spec; [now rewrite <- Hkeys | now left]. }
        pose proof (find_info_key_none_inv _ _ Hfind k Hk). congruence.
      * intros Hsub.
        assert (E' : key_matches (lower info_type) k = true).
        { apply key_matches_spec; [now rewrite <- Hkeys | now right]. }
        pose proof (find_info_key_none_inv _ _ Hfind k Hk). congruence.
    + rewrite Hkeys. reflexivity.
Qed.

Lemma ascii_lower_is_ascii (c : codepoint) :
  is_ascii c = true -> is_ascii (ascii_lower c) = true.
Proof.
  unfold is_ascii, ascii_lower. intros H. apply N.ltb_lt in H.
  destruct (N.leb 65 c && N.leb c 90) eqn:E; apply N.ltb_lt; [|exact H].
  apply andb_true_iff in E as [_ E]. apply N.leb_le in E. lia.
Qed.

Lemma ascii_lower_idempotent (c : codepoint) : ascii_lower (ascii_lower c) = ascii_lower c.
Proof.
  unfold ascii_lower. destruct (N.leb 65 c && N.leb c 90) eqn:E; [|now rewrite E].
  apply andb_true_iff in E as [E1 E2]. apply N.leb_le in E1, E2.
  replace (N.leb (c + 32) 90) with false; [now rewrite andb_false_r|].
  symmetry. apply N.leb_gt. lia.
Qed.

(** Lower-casing ASCII text twice is lower-casing it once. *)
Lemma lower_idempotent_ascii (s : str) :
  forallb is_ascii s = true -> lower (lower s) = lower s.
Proof.
  intros H. rewrite (lower_ascii _ H).
  assert (H' : forallb is_ascii (map ascii_lower s) = true).
  { rewrite forallb_forall in *. intros c Hc. apply in_map_iff in Hc as (c0 & <- & Hc0).
    apply ascii_lower_is_ascii. auto. }
  rewrite (lower_ascii _ H'), map_map. apply map_ext. apply ascii_lower_idempotent.
Qed.

(** X15.  The lookup ignores case: two requests whose cities lower-case to the
    same text and whose info_types lower-case to the same text succeed with the
    same fact (the reports differ only in the spelling they repeat).  For ASCII
    text this covers a request and its lower-cased form. *)
Theorem get_travel_info_ignores_case :
  (forall (city city' info_type info_type' fact : str) (w : World),
     lower city = lower city' ->
     lower info_type = lower info_type' ->
     get_travel_info (PStr city) (PStr info_type) w =
       (Ret (success_result
               (lit "For " ++ info_type ++ lit " in " ++ city ++ lit ": " ++ fact)), w) ->
     get_travel_info (PStr city') (PStr info_type') w =
       (Ret (success_result
               (lit "For " ++ info_type' ++ lit " in " ++ city' ++ lit ": " ++ fact)), w))
  /\
  (forall s : str, forallb is_ascii s = true -> lower (lower s) = lower s).
Proof.
  split; [|exact lower_idempotent_ascii].
  intros city city' info_type info_type' fact w Hcity Hinfo H.
  destruct (get_travel_info_cases city info_type w)
    as [[_ E] | [(city_info & k & fact0 & Hlookup & Hfact & Hk & E) | (city_info & _ & _ & _ & E)]];
    rewrite E in H; try discriminate H.
  injection H as H.
  apply app_inv_head in H. injection H as H.
  apply app_inv_head in H. injection H as ->.
  rewrite Hcity in Hlookup. rewrite Hinfo in Hk.
  destruct Hk as [<- | [Hkey Hfind]].
  - now apply travel_exact_match with (city_info := city_info).
  - now apply travel_found_key with (city_info := city_info) (K := k).
Qed.

End Tools.

(** ** The tools at concrete inputs *)

Module Run.

(** The tools over the stand-in collaborators of [Sample]; the HTTP client
    answers with [body], the geocoder with [geocode]. *)
Definition travel_info (city info_type : pyval) : outcome tool_result * unit :=
  get_travel_info Sample.unicode_lower Sample.py_repr Sample.failure_text city info_type tt.

Definition weather (geocode : unit -> pyval -> unit -> outcome (option Location) * unit)
    (body : pyval) (city : pyval) : outcome tool_result * unit :=
  get_weather Sample.py_repr Sample.failure_text Sample.Nominatim geocode
    (Sample.requests_get body) Sample.raise_for_status Sample.response_json city tt.

Definition current_time (geocode : unit -> pyval -> unit -> outcome (option Location) * unit)
    (city : pyval) : outcome tool_result * unit :=
  get_current_time Sample.py_repr Sample.Nominatim geocode Sample.TimezoneFinder
    Sample.timezone_at Sample.ZoneInfo Sample.datetime_now Sample.strftime city tt.

Definition lower_text : str -> str := lower Sample.unicode_lower.

End Run.

(** The request (TOKYO, Transport): "transport" is no key and occurs in neither
    "power outlets" nor "culture", but in "transportation". *)
Lemma get_travel_info_fuzzy_first_match_witness :
  dict_get (Run.lower_text (lit "TOKYO")) travel_data = Some (city_facts (lit "tokyo")) /\
  dict_get (Run.lower_text (lit "Transport")) (city_facts (lit "tokyo")) = None /\
  Run.travel_info (PStr (lit "TOKYO")) (PStr (lit "Transport")) =
    (Ret (success_result
            (lit "For Transport in TOKYO: Highly efficient train and metro system. The Japan Rail Pass can be cost-effective. Be mindful of rush hour.")),
     tt).
Proof.
  assert (Hcity : dict_get (Run.lower_text (lit "TOKYO")) travel_data
                  = Some (city_facts (lit "tokyo"))) by reflexivity.
  assert (Hkey : dict_get (Run.lower_text (lit "Transport")) (city_facts (lit "tokyo"))
                 = None) by reflexivity.
  split; [exact Hcity|]. split; [exact Hkey|].
  etransitivity.
  - apply (proj2 (proj1 (@get_travel_info_fuzzy_first_match
                           unit Sample.unicode_lower Sample.py_repr Sample.failure_text)
                    (lit "TOKYO") (lit "Transport") (city_facts (lit "tokyo")) tt Hcity Hkey))
      with (before := [lit "power outlets"; lit "culture"]) (after := @nil str)
           (K := lit "transportation").
    + reflexivity.
    + intros k [<- | [<- | []]]; split; apply str_in_false; reflexivity.
    + left. apply str_in_spec. reflexivity.
    + reflexivity.
  - reflexivity.
Defined.

(** The request (TOKYO, Culture): the report repeats the caller's spelling. *)
Lemma get_travel_info_exact_match_witness :
  dict_get (Run.lower_text (lit "TOKYO")) travel_data = Some (city_facts (lit "tokyo")) /\
  dict_get (Run.lower_text (lit "Culture")) (city_facts (lit "tokyo"))
    = Some (lit "Highly values politeness, order, and cleanliness. Do not tip. Remove shoes in homes and some restaurants. Respect queues.") /\
  Run.travel_info (PStr (lit "TOKYO")) (PStr (lit "Culture")) =
    (Ret (success_result
            (lit "For Culture in TOKYO: Highly values politeness, order, and cleanliness. Do not tip. Remove shoes in homes and some restaurants. Respect queues.")),
     tt).
Proof.
  split; [reflexivity|]. split; [reflexivity|].
  etransitivity.
  - apply (proj1 (@get_travel_info_exact_match
                    unit Sample.unicode_lower Sample.py_repr Sample.failure_text)
             (lit "TOKYO") (lit "Culture") (city_facts (lit "tokyo"))); reflexivity.
  - reflexivity.
Defined.

(** The request (Atlantis, power outlets): no such city in the table. *)
Lemma get_travel_info_unknown_city_witness :
  dict_get (Run.lower_text (lit "Atlantis")) travel_data = None /\
  Run.travel_info (PStr (lit "Atlantis")) (PStr (lit "power outlets")) =
    (Ret (error_result
            (lit "Sorry, I don't have specific travel information for Atlantis yet. You can try major cities like London, Tokyo, New York, or Paris.")),
     tt).
Proof.
  assert (Hcity : dict_get (Run.lower_text (lit "Atlantis")) travel_data = None)
    by reflexivity.
  split; [exact Hcity|].
  destruct (proj1 (@get_travel_info_unknown_city
                     unit Sample.unicode_lower Sample.py_repr Sample.failure_text)
              (lit "Atlantis") (lit "power outlets") tt Hcity)
    as (message & Hresult & Hmessage & _).
  unfold Run.travel_info. rewrite Hresult, Hmessage. reflexivity.
Defined.

(** The request (paris, Museums): "museums" is related to no category. *)
Lemma get_travel_info_unknown_category_witness :
  dict_get (Run.lower_text (lit "paris")) travel_data = Some (city_facts (lit "paris")) /\
  (forall k, In k (dict_keys (city_facts (lit "paris"))) ->
             Run.lower_text (lit "Museums") <> k /\
             ~ substring (Run.lower_text (lit "Museums")) k /\
             ~ substring k (Run.lower_text (lit "Museums"))) /\
  Run.travel_info (PStr (lit "paris")) (PStr (lit "Museums")) =
    (Ret (error_result
            (lit "Sorry, I don't have information about 'Museums' for paris. Available information includes: power outlets, culture, transportation.")),
     tt).
Proof.
  assert (Hcity : dict_get (Run.lower_text (lit "paris")) travel_data
                  = Some (city_facts (lit "paris"))) by reflexivity.
  assert (Hnone : forall k, In k (dict_keys (city_facts (lit "paris"))) ->
             Run.lower_text (lit "Museums") <> k /\
             ~ substring (Run.lower_text (lit "Museums")) k /\
             ~ substring k (Run.lower_text (lit "Museums"))).
  { intros k Hk.
    change (In k [lit "power outlets"; lit "culture"; lit "transportation"]) in Hk.
    destruct Hk as [<- | [<- | [<- | []]]];
      (split; [discriminate | split; apply str_in_false; reflexivity]). }
  split; [exact Hcity|]. split; [exact Hnone|].
  etransitivity.
  - apply (proj1 (proj1 (@get_travel_info_unknown_category
                           unit Sample.unicode_lower Sample.py_repr Sample.failure_text)
                    (lit "paris") (lit "Museums") (city_facts (lit "paris")) tt Hcity Hnone)).
  - reflexivity.
Defined.

(** The request (Surabaya, empty text). *)
Lemma get_travel_info_empty_info_type_witness :
  dict_get (Run.lower_text (lit "Surabaya")) travel_data = Some (city_facts (lit "surabaya")) /\
  Run.travel_info (PStr (lit "Surabaya")) (PStr []) =
    (Ret (success_result
            (lit "For  in Surabaya: Types C and F (two round pins). Standard voltage 230V, frequency 50Hz.")),
     tt).
Proof.
  assert (Hcity : dict_get (Run.lower_text (lit "Surabaya")) travel_data
                  = Some (city_facts (lit "surabaya"))) by reflexivity.
  split; [exact Hcity|].
  destruct (@get_travel_info_empty_info_type
              unit Sample.unicode_lower Sample.py_repr Sample.failure_text
              (lit "Surabaya") (city_facts (lit "surabaya")) tt Hcity)
    as (_ & _ & fact & Hfact & Hresult).
  unfold Run.travel_info. rewrite Hresult.
  vm_compute in Hfact. injection Hfact as <-. reflexivity.
Defined.

(** One run of each tool, and the shape of what it returned. *)
Lemma tool_results_well_formed_witness :
  Run.weather Sample.geocode_paris Sample.body_complete (PStr (lit "Paris")) =
    (Ret (success_result
            (lit "The current temperature in Paris is 21.3" ++ degree_C
               ++ lit " with a wind speed of 12 km/h. Weather code: 3.")), tt) /\
  result_invariant
    (success_result
       (lit "The current temperature in Paris is 21.3" ++ degree_C
          ++ lit " with a wind speed of 12 km/h. Weather code: 3.")) /\
  Run.current_time Sample.geocode_paris (PStr (lit "Paris")) =
    (Ret (success_result (lit "The current time in Paris is 2025-01-01 12:00:00 CET+0100")), tt) /\
  result_invariant
    (success_result (lit "The current time in Paris is 2025-01-01 12:00:00 CET+0100")) /\
  Run.travel_info (PStr (lit "London")) (PStr (lit "food")) =
    (Ret (error_result
            (lit "Sorry, I don't have information about 'food' for London. Available information includes: power outlets, culture, transportation.")),
     tt) /\
  result_invariant
    (error_result
       (lit "Sorry, I don't have information about 'food' for London. Available information includes: power outlets, culture, transportation.")).
Proof.
  pose proof (@tool_results_well_formed
                unit Sample.unicode_lower Sample.py_repr Sample.failure_text
                unit Sample.Nominatim Sample.geocode_paris
                pyval (Sample.requests_get Sample.body_complete)
                Sample.raise_for_status Sample.response_json
                unit Sample.TimezoneFinder Sample.timezone_at
                str Sample.ZoneInfo str Sample.datetime_now Sample.strftime) as T.
  assert (H1 : Run.weather Sample.geocode_paris Sample.body_complete (PStr (lit "Paris")) =
    (Ret (success_result
            (lit "The current temperature in Paris is 21.3" ++ degree_C
               ++ lit " with a wind speed of 12 km/h. Weather code: 3.")), tt))
    by reflexivity.
  assert (H2 : Run.current_time Sample.geocode_paris (PStr (lit "Paris")) =
    (Ret (success_result (lit "The current time in Paris is 2025-01-01 12:00:00 CET+0100")), tt))
    by reflexivity.
  assert (H3 : Run.travel_info (PStr (lit "London")) (PStr (lit "food")) =
    (Ret (error_result
            (lit "Sorry, I don't have information about 'food' for London. Available information includes: power outlets, culture, transportation.")),
     tt)) by reflexivity.
  split; [exact H1|]. split.
  { exact (proj1 (T (PStr (lit "Paris")) PNone tt tt _ (or_introl H1))). }
  split; [exact H2|]. split.
  { exact (proj1 (T (PStr (lit "Paris")) PNone tt tt _ (or_intror (or_introl H2)))). }
  split; [exact H3|].
  exact (proj1 (T (PStr (lit "London")) (PStr (lit "food")) tt tt _
                  (or_intror (or_intror H3)))).
Defined.

(** The geocoder knows no Atlantis. *)
Lemma city_not_found_witness :
  Sample.Nominatim (lit "weather_app") tt = (Ret tt, tt) /\
  Sample.Nominatim (lit "city_time_app") tt = (Ret tt, tt) /\
  Sample.TimezoneFinder tt = (Ret tt, tt) /\
  Sample.geocode_none tt (PStr (lit "Atlantis")) tt = (Ret None, tt) /\
  Run.weather Sample.geocode_none Sample.body_complete (PStr (lit "Atlantis")) =
    (Ret (error_result (lit "Could not find the city: Atlantis.")), tt) /\
  Run.current_time Sample.geocode_none (PStr (lit "Atlantis")) =
    (Ret (error_result (lit "Could not find the city: Atlantis.")), tt).
Proof.
  pose proof (@city_not_found
                unit Sample.py_repr Sample.failure_text
                unit Sample.Nominatim Sample.geocode_none
                pyval (Sample.requests_get Sample.body_complete)
                Sample.raise_for_status Sample.response_json
                unit Sample.TimezoneFinder Sample.timezone_at
                str Sample.ZoneInfo str Sample.datetime_now Sample.strftime)
    as (Tweather & Ttime & _).
  do 4 (split; [reflexivity|]). split.
  - etransitivity; [|reflexivity].
    apply (Tweather (lit "Atlantis") tt tt tt tt); reflexivity.
  - etransitivity; [|reflexivity].
    apply (Ttime (lit "Atlantis") tt tt tt tt tt tt); reflexivity.
Defined.

(** A complete answer of the weather provider: 21.3 degrees, wind 12, code 3. *)
Lemma get_weather_report_witness :
  Sample.geocode_paris tt (PStr (lit "Paris")) tt = (Ret (Some Sample.paris), tt) /\
  Sample.response_json Sample.body_complete tt = (Ret Sample.body_complete, tt) /\
  as_float (PFloat (S754_finite false 5995719667974963 (-48)))
    = Some (S754_finite false 5995719667974963 (-48)) /\
  is_finite (S754_finite false 5995719667974963 (-48)) = true /\
  Run.weather Sample.geocode_paris Sample.body_complete (PStr (lit "Paris")) =
    (Ret (success_result
            (lit "The current temperature in Paris is 21.3" ++ degree_C
               ++ lit " with a wind speed of 12 km/h. Weather code: 3.")), tt) /\
  one_decimal_place (lit "21.3").
Proof.
  pose proof (@get_weather_report
                unit Sample.py_repr Sample.failure_text
                unit Sample.Nominatim Sample.geocode_paris
                pyval (Sample.requests_get Sample.body_complete)
                Sample.raise_for_status Sample.response_json
                (lit "Paris") tt tt tt tt tt tt tt Sample.paris Sample.body_complete
                [(lit "current_weather",
                  PDict [(lit "temperature", PFloat (S754_finite false 5995719667974963 (-48)));
                         (lit "windspeed", PInt 12);
                         (lit "weathercode", PInt 3)])]
                [(lit "temperature", PFloat (S754_finite false 5995719667974963 (-48)));
                 (lit "windspeed", PInt 12);
                 (lit "weathercode", PInt 3)]
                (PFloat (S754_finite false 5995719667974963 (-48))) (PInt 12) (PInt 3)
                (S754_finite false 5995719667974963 (-48))
                eq_refl eq_refl eq_refl eq_refl eq_refl eq_refl eq_refl eq_refl eq_refl
                eq_refl eq_refl) as [Hreport Hplace].
  do 4 (split; [reflexivity|]). split.
  - etransitivity; [exact Hreport | reflexivity].
  - exact Hplace.
Defined.

(** C8 as stated fails: geocoding succeeds and the body has a "current_weather"
    object, but the object has no "temperature", so reading it raises KeyError
    and the tool returns an error, not a report.  A temperature that is text
    gives an error as well, and a NaN temperature gives a report without any
    decimal place. *)
Lemma get_weather_missing_temperature :
  Sample.geocode_paris tt (PStr (lit "Paris")) tt = (Ret (Some Sample.paris), tt) /\
  Sample.response_json Sample.body_without_fields tt
    = (Ret (PDict [(lit "current_weather", PDict [])]), tt) /\
  Run.weather Sample.geocode_paris Sample.body_without_fields (PStr (lit "Paris")) =
    (Ret (error_result (lit "An unexpected error occurred: 'temperature'")), tt) /\
  (forall report : str,
     Run.weather Sample.geocode_paris Sample.body_without_fields (PStr (lit "Paris"))
     <> (Ret (success_result report), tt)) /\
  Run.weather Sample.geocode_paris Sample.body_text_temperature (PStr (lit "Paris")) =
    (Ret (error_result
            (lit "An unexpected error occurred: Unknown format code 'f' for object of type 'str'")),
     tt) /\
  Run.weather Sample.geocode_paris Sample.body_nan_temperature (PStr (lit "Paris")) =
    (Ret (success_result
            (lit "The current temperature in Paris is nan" ++ degree_C
               ++ lit " with a wind speed of 12 km/h. Weather code: 3.")), tt) /\
  ~ one_decimal_place (lit "nan").
Proof.
  do 3 (split; [reflexivity|]). split; [intros report H; discriminate H|].
  do 2 (split; [reflexivity|]).
  intros (negative & int_part & d & H & Hnonempty & _).
  destruct negative; [discriminate H|].
  destruct int_part as [|c1 [|c2 [|c3 rest]]];
    [now apply Hnonempty | discriminate H | discriminate H |].
  destruct rest; discriminate H.
Qed.

(** Unlike get_travel_info, get_weather answers differently in different
    worlds: the same call succeeds while the geocoder is online and fails
    while it is not. *)
Lemma get_weather_depends_on_world :
  get_weather Sample.py_repr Sample.failure_text Sample.Nominatim Sample.geocode_if_online
    (Sample.requests_get Sample.body_complete) Sample.raise_for_status Sample.response_json
    (PStr (lit "Paris")) true
  = (Ret (success_result
            (lit "The current temperature in Paris is 21.3" ++ degree_C
               ++ lit " with a wind speed of 12 km/h. Weather code: 3.")), true)
  /\
  get_weather Sample.py_repr Sample.failure_text Sample.Nominatim Sample.geocode_if_online
    (Sample.requests_get Sample.body_complete) Sample.raise_for_status Sample.response_json
    (PStr (lit "Paris")) false
  = (Ret (error_result (lit "Could not find the city: Paris.")), false).
Proof. split; reflexivity. Qed.

(** ** Further runs over the stand-in collaborators *)

Module Trial.

Definition geocoder : Type := unit -> pyval -> unit -> outcome (option Location) * unit.
Definition http_get : Type := str -> dict pyval -> Z -> unit -> outcome pyval * unit.
Definition zone_finder : Type := unit -> spec_float -> spec_float -> unit -> outcome (option str) * unit.
Definition zone_database : Type := str -> unit -> outcome str * unit.

Definition weather_via (geocode : geocoder) (requests_get : http_get) (city : pyval)
  : outcome tool_result * unit :=
  get_weather Sample.py_repr Sample.failure_text Sample.Nominatim geocode requests_get
    Sample.raise_for_status Sample.response_json city tt.

Definition weather_calls_via (geocode : geocoder) (requests_get : http_get) (city data : pyval)
  : Prop :=
  weather_calls Sample.Nominatim geocode requests_get
    Sample.raise_for_status Sample.response_json city tt data tt.

Definition weather_raises_via (geocode : geocoder) (requests_get : http_get) (city : pyval)
    (e : exn) : Prop :=
  weather_raises Sample.Nominatim geocode requests_get
    Sample.raise_for_status Sample.response_json city tt e tt.

Definition current_time_via (geocode : geocoder) (timezone_at : zone_finder)
    (ZoneInfo : zone_database) (city : pyval) : outcome tool_result * unit :=
  get_current_time Sample.py_repr Sample.Nominatim geocode Sample.TimezoneFinder
    timezone_at ZoneInfo Sample.datetime_now Sample.strftime city tt.

Definition time_located_via (geocode : geocoder) (city : pyval) (location : Location) : Prop :=
  time_located Sample.Nominatim geocode Sample.TimezoneFinder city tt tt location tt.

Definition time_raises_via (geocode : geocoder) (timezone_at : zone_finder)
    (ZoneInfo : zone_database) (city : pyval) (e : exn) : Prop :=
  time_raises Sample.Nominatim geocode Sample.TimezoneFinder
    timezone_at ZoneInfo Sample.datetime_now Sample.strftime city tt e tt.

End Trial.

(** The provider answers [{"hourly": {}}]. *)
Lemma get_weather_data_not_available_witness :
  Trial.weather_calls_via Sample.geocode_paris
    (Sample.requests_get Sample.body_without_current_weather)
    (PStr (lit "Paris")) (PDict [(lit "hourly", PDict [])]) /\
  dict_get (lit "current_weather") [(lit "hourly", PDict [])] = None /\
  Trial.weather_via Sample.geocode_paris
    (Sample.requests_get Sample.body_without_current_weather) (PStr (lit "Paris")) =
    (Ret (error_result (lit "Weather data not available for Paris.")), tt).
Proof.
  assert (Hcalls : Trial.weather_calls_via Sample.geocode_paris
                     (Sample.requests_get Sample.body_without_current_weather)
                     (PStr (lit "Paris")) (PDict [(lit "hourly", PDict [])]))
    by (eapply weather_calls_intro; reflexivity).
  split; [exact Hcalls|]. split; [reflexivity|].
  etransitivity; [|reflexivity].
  apply (@get_weather_data_not_available unit Sample.py_repr Sample.failure_text
           _ _ _ _ _ _ _ (lit "Paris") tt tt _ Hcalls).
  reflexivity.
Defined.

(** The request times out. *)
Lemma get_weather_request_error_witness :
  Trial.weather_raises_via Sample.geocode_paris Sample.requests_get_timeout
    (PStr (lit "Paris"))
    (mkExn RequestException (lit "Read timed out. (read timeout=10)")) /\
  is_RequestException (mkExn RequestException (lit "Read timed out. (read timeout=10)")) = true /\
  Trial.weather_via Sample.geocode_paris Sample.requests_get_timeout (PStr (lit "Paris")) =
    (Ret (error_result (lit "Request error: Read timed out. (read timeout=10)")), tt).
Proof.
  assert (Hraises : Trial.weather_raises_via Sample.geocode_paris Sample.requests_get_timeout
                      (PStr (lit "Paris"))
                      (mkExn RequestException (lit "Read timed out. (read timeout=10)")))
    by (eapply raises_in_requests_get; reflexivity).
  split; [exact Hraises|]. split; [reflexivity|].
  etransitivity; [|reflexivity].
  exact (@get_weather_request_error unit Sample.py_repr Sample.failure_text
           _ _ _ _ _ _ _ _ tt tt _ Hraises eq_refl).
Defined.

(** The geocoding service is down. *)
Lemma get_weather_unexpected_error_witness :
  Trial.weather_raises_via Sample.geocode_unavailable
    (Sample.requests_get Sample.body_complete) (PStr (lit "Paris"))
    (mkExn OtherException (lit "Service not available")) /\
  is_RequestException (mkExn OtherException (lit "Service not available")) = false /\
  is_Exception (mkExn OtherException (lit "Service not available")) = true /\
  Trial.weather_via Sample.geocode_unavailable
    (Sample.requests_get Sample.body_complete) (PStr (lit "Paris")) =
    (Ret (error_result (lit "An unexpected error occurred: Service not available")), tt).
Proof.
  assert (Hraises : Trial.weather_raises_via Sample.geocode_unavailable
                      (Sample.requests_get Sample.body_complete) (PStr (lit "Paris"))
                      (mkExn OtherException (lit "Service not available")))
    by (eapply raises_in_weather_geocode; reflexivity).
  split; [exact Hraises|]. do 2 (split; [reflexivity|]).
  etransitivity; [|reflexivity].
  exact (@get_weather_unexpected_error unit Sample.py_repr Sample.failure_text
           _ _ _ _ _ _ _ _ tt tt _ Hraises eq_refl eq_refl).
Defined.

(** A successful run, read backwards. *)
Lemma get_weather_success_only_if_witness :
  Trial.weather_via Sample.geocode_paris (Sample.requests_get Sample.body_complete)
    (PStr (lit "Paris")) =
    (Ret (success_result
            (lit "The current temperature in Paris is 21.3" ++ degree_C
               ++ lit " with a wind speed of 12 km/h. Weather code: 3.")), tt) /\
  dict_get (lit "status")
    (success_result
       (lit "The current temperature in Paris is 21.3" ++ degree_C
          ++ lit " with a wind speed of 12 km/h. Weather code: 3."))
    = Some (lit "success") /\
  exists (data weather : dict pyval) (temperature_c wind_speed weather_code : pyval)
         (temperature : spec_float),
    Trial.weather_calls_via Sample.geocode_paris (Sample.requests_get Sample.body_complete)
      (PStr (lit "Paris")) (PDict data) /\
    dict_get (lit "current_weather") data = Some (PDict weather) /\
    dict_get (lit "temperature") weather = Some temperature_c /\
    dict_get (lit "windspeed") weather = Some wind_speed /\
    dict_get (lit "weathercode") weather = Some weather_code /\
    as_float temperature_c = Some temperature.
Proof.
  assert (Hrun : Trial.weather_via Sample.geocode_paris
                   (Sample.requests_get Sample.body_complete) (PStr (lit "Paris")) =
    (Ret (success_result
            (lit "The current temperature in Paris is 21.3" ++ degree_C
               ++ lit " with a wind speed of 12 km/h. Weather code: 3.")), tt))
    by reflexivity.
  split; [exact Hrun|]. split; [reflexivity|].
  destruct (@get_weather_success_only_if unit Sample.py_repr Sample.failure_text
              _ Sample.Nominatim Sample.geocode_paris _
              (Sample.requests_get Sample.body_complete)
              Sample.raise_for_status Sample.response_json
              (lit "Paris") tt tt _ Hrun eq_refl)
    as (data & weather & temperature_c & wind_speed & weather_code & temperature
        & Hcalls & Hweather & Htemperature & Hwind & Hcode & Hfloat & _).
  exists data, weather, temperature_c, wind_speed, weather_code, temperature.
  repeat (split; [assumption|]). assumption.
Defined.

(** The provider leaves out the weather code. *)
Lemma get_weather_incomplete_current_weather_witness :
  Trial.weather_calls_via Sample.geocode_paris
    (Sample.requests_get Sample.body_without_weathercode)
    (PStr (lit "Paris"))
    (PDict [(lit "current_weather",
             PDict [(lit "temperature", PFloat (S754_finite false 5995719667974963 (-48)));
                    (lit "windspeed", PInt 12)])]) /\
  Trial.weather_via Sample.geocode_paris
    (Sample.requests_get Sample.body_without_weathercode) (PStr (lit "Paris")) =
    (Ret (error_result (lit "An unexpected error occurred: 'weathercode'")), tt).
Proof.
  assert (Hcalls : Trial.weather_calls_via Sample.geocode_paris
    (Sample.requests_get Sample.body_without_weathercode)
    (PStr (lit "Paris"))
    (PDict [(lit "current_weather",
             PDict [(lit "temperature", PFloat (S754_finite false 5995719667974963 (-48)));
                    (lit "windspeed", PInt 12)])]))
    by (eapply weather_calls_intro; reflexivity).
  split; [exact Hcalls|].
  destruct (@get_weather_incomplete_current_weather unit Sample.py_repr Sample.failure_text
              _ _ _ _ _ _ _ (lit "Paris") tt tt _ _ Hcalls eq_refl) as [_ Hobject].
  destruct (Hobject _ eq_refl) as (_ & _ & Hcode & _).
  etransitivity; [|reflexivity].
  apply Hcode; [discriminate | discriminate | reflexivity].
Defined.


(** The clock of Paris. *)
Lemma get_current_time_report_witness :
  Trial.time_located_via Sample.geocode_paris (PStr (lit "Paris")) Sample.paris /\
  Sample.timezone_at tt (longitude Sample.paris) (latitude Sample.paris) tt
    = (Ret (Some (lit "Europe/Paris")), tt) /\
  Trial.current_time_via Sample.geocode_paris Sample.timezone_at Sample.ZoneInfo
    (PStr (lit "Paris")) =
    (Ret (success_result (lit "The current time in Paris is 2025-01-01 12:00:00 CET+0100")), tt).
Proof.
  assert (Hlocated : Trial.time_located_via Sample.geocode_paris (PStr (lit "Paris")) Sample.paris)
    by (eapply time_located_intro; reflexivity).
  split; [exact Hlocated|]. split; [reflexivity|].
  etransitivity; [|reflexivity].
  apply (@get_current_time_report unit Sample.py_repr _ _ _ _ _ Sample.timezone_at
           _ Sample.ZoneInfo _ Sample.datetime_now Sample.strftime
           (lit "Paris") tt tt tt tt tt tt tt Sample.paris 69%N (lit "urope/Paris")
           (lit "Europe/Paris") (lit "Europe/Paris") (lit "2025-01-01 12:00:00 CET+0100")
           Hlocated);
    reflexivity.
Defined.

(** The timezone finder has no zone for the place. *)
Lemma get_current_time_no_timezone_witness :
  Trial.time_located_via Sample.geocode_paris (PStr (lit "Paris")) Sample.paris /\
  Sample.timezone_at_nowhere tt (longitude Sample.paris) (latitude Sample.paris) tt
    = (Ret None, tt) /\
  Trial.current_time_via Sample.geocode_paris Sample.timezone_at_nowhere Sample.ZoneInfo
    (PStr (lit "Paris")) =
    (Ret (error_result (lit "Could not determine the timezone for Paris.")), tt).
Proof.
  assert (Hlocated : Trial.time_located_via Sample.geocode_paris (PStr (lit "Paris")) Sample.paris)
    by (eapply time_located_intro; reflexivity).
  split; [exact Hlocated|]. split; [reflexivity|].
  etransitivity; [|reflexivity].
  apply (@get_current_time_no_timezone unit Sample.py_repr _ _ _ _ _
           Sample.timezone_at_nowhere _ Sample.ZoneInfo _ Sample.datetime_now Sample.strftime
           (lit "Paris") tt tt tt tt Sample.paris None Hlocated eq_refl).
  now left.
Defined.

(** The zone database lacks the zone. *)
Lemma get_current_time_error_is_exception_text_witness :
  Trial.time_raises_via Sample.geocode_paris Sample.timezone_at Sample.ZoneInfo_missing
    (PStr (lit "Paris"))
    (mkExn OtherException (lit "'No time zone found with key Europe/Paris'")) /\
  is_Exception (mkExn OtherException (lit "'No time zone found with key Europe/Paris'")) = true /\
  Trial.current_time_via Sample.geocode_paris Sample.timezone_at Sample.ZoneInfo_missing
    (PStr (lit "Paris")) =
    (Ret (error_result (lit "'No time zone found with key Europe/Paris'")), tt).
Proof.
  assert (Hraises : Trial.time_raises_via Sample.geocode_paris Sample.timezone_at
                      Sample.ZoneInfo_missing (PStr (lit "Paris"))
                      (mkExn OtherException (lit "'No time zone found with key Europe/Paris'"))).
  { eapply raises_in_ZoneInfo with (location := Sample.paris) (c := 69%N)
                                   (name := lit "urope/Paris");
      [eapply time_located_intro; reflexivity | reflexivity | reflexivity]. }
  split; [exact Hraises|]. split; [reflexivity|].
  etransitivity; [|reflexivity].
  exact (@get_current_time_error_is_exception_text unit Sample.py_repr
           _ _ _ _ _ _ _ _ _ _ _ _ tt tt _ Hraises eq_refl).
Defined.

(** A successful run of the clock, read backwards. *)
Lemma get_current_time_success_only_if_witness :
  Trial.current_time_via Sample.geocode_paris Sample.timezone_at Sample.ZoneInfo
    (PStr (lit "Paris")) =
    (Ret (success_result (lit "The current time in Paris is 2025-01-01 12:00:00 CET+0100")), tt) /\
  dict_get (lit "status")
    (success_result (lit "The current time in Paris is 2025-01-01 12:00:00 CET+0100"))
    = Some (lit "success") /\
  exists (location : Location) (c : codepoint) (name : str),
    Trial.time_located_via Sample.geocode_paris (PStr (lit "Paris")) location /\
    Sample.timezone_at tt (longitude location) (latitude location) tt
      = (Ret (Some (c :: name)), tt).
Proof.
  assert (Hrun : Trial.current_time_via Sample.geocode_paris Sample.timezone_at Sample.ZoneInfo
                   (PStr (lit "Paris")) =
    (Ret (success_result (lit "The current time in Paris is 2025-01-01 12:00:00 CET+0100")), tt))
    by reflexivity.
  split; [exact Hrun|]. split; [reflexivity|].
  destruct (@get_current_time_success_only_if unit Sample.py_repr
              _ Sample.Nominatim Sample.geocode_paris _ Sample.TimezoneFinder
              Sample.timezone_at _ Sample.ZoneInfo _ Sample.datetime_now Sample.strftime
              (lit "Paris") tt tt _ Hrun eq_refl)
    as (tf & location & c & name & tz & now & formatted & w3 & w4 & w5 & w6
        & Hlocated & Hzone & _).
  destruct tf, w3, w4. exists location, c, name. split; assumption.
Defined.

(** The user interrupts the geocoder: the interrupt leaves get_weather. *)
Lemma weather_and_time_raise_no_Exception_witness :
  Trial.weather_via Sample.geocode_interrupted (Sample.requests_get Sample.body_complete)
    (PStr (lit "Paris")) = (Raise (mkExn BaseExceptionOnly (lit "")), tt) /\
  is_Exception (mkExn BaseExceptionOnly (lit "")) = false.
Proof.
  assert (Hrun : Trial.weather_via Sample.geocode_interrupted
                   (Sample.requests_get Sample.body_complete) (PStr (lit "Paris"))
                 = (Raise (mkExn BaseExceptionOnly (lit "")), tt)) by reflexivity.
  split; [exact Hrun|].
  exact (@weather_and_time_raise_no_Exception unit Sample.py_repr Sample.failure_text
           _ Sample.Nominatim Sample.geocode_interrupted
           _ (Sample.requests_get Sample.body_complete)
           Sample.raise_for_status Sample.response_json
           _ Sample.TimezoneFinder Sample.timezone_at _ Sample.ZoneInfo
           _ Sample.datetime_now Sample.strftime
           (PStr (lit "Paris")) tt tt _ (or_introl Hrun)).
Defined.

(** The request (Paris, outlets), read backwards. *)
Lemma get_travel_info_success_sound_witness :
  Run.travel_info (PStr (lit "Paris")) (PStr (lit "outlets")) =
    (Ret (success_result
            (lit "For outlets in Paris: Type E (two round pins with a grounding hole). Standard voltage 230V, frequency 50Hz.")),
     tt) /\
  exists (k fact : str),
    dict_get k (city_facts (lit "paris")) = Some fact /\
    (substring (Run.lower_text (lit "outlets")) k \/
     substring k (Run.lower_text (lit "outlets"))) /\
    lit "For outlets in Paris: Type E (two round pins with a grounding hole). Standard voltage 230V, frequency 50Hz."
      = lit "For " ++ lit "outlets" ++ lit " in " ++ lit "Paris" ++ lit ": " ++ fact.
Proof.
  assert (Hrun : Run.travel_info (PStr (lit "Paris")) (PStr (lit "outlets")) =
    (Ret (success_result
            (lit "For outlets in Paris: Type E (two round pins with a grounding hole). Standard voltage 230V, frequency 50Hz.")),
     tt)) by reflexivity.
  split; [exact Hrun|].
  destruct (@get_travel_info_success_sound unit Sample.unicode_lower Sample.py_repr
              Sample.failure_text (lit "Paris") (lit "outlets") tt tt _ Hrun eq_refl)
    as (city_info & k & fact & Hcity & Hfact & Hk & Hreport).
  vm_compute in Hcity. injection Hcity as <-.
  exists k, fact. split; [exact Hfact|]. split; [exact Hk|].
  exact (f_equal (fun r : tool_result =>
                    match r with [_; (_, report)] => report | _ => [] end) Hreport).
Defined.

(** The request (London, food), read backwards. *)
Lemma get_travel_info_errors_on_text_witness :
  Run.travel_info (PStr (lit "London")) (PStr (lit "food")) =
    (Ret (error_result
            (lit "Sorry, I don't have information about 'food' for London. Available information includes: power outlets, culture, transportation.")),
     tt) /\
  (forall k, In k [lit "power outlets"; lit "culture"; lit "transportation"] ->
             ~ substring (lit "food") k /\ ~ substring k (lit "food")) /\
  (forall text : str,
     error_result
       (lit "Sorry, I don't have information about 'food' for London. Available information includes: power outlets, culture, transportation.")
     <> error_result (lit "An error occurred while fetching travel information: " ++ text)).
Proof.
  assert (Hrun : Run.travel_info (PStr (lit "London")) (PStr (lit "food")) =
    (Ret (error_result
            (lit "Sorry, I don't have information about 'food' for London. Available information includes: power outlets, culture, transportation.")),
     tt)) by reflexivity.
  split; [exact Hrun|].
  destruct (@get_travel_info_errors_on_text unit Sample.unicode_lower Sample.py_repr
              Sample.failure_text (lit "London") (lit "food") tt tt _ Hrun eq_refl)
    as [[[Hcity _] | (city_info & Hcity & Hnone & _)] Hnever].
  - discriminate Hcity.
  - split; [|exact Hnever].
    vm_compute in Hcity. injection Hcity as <-.
    intros k Hk. destruct (Hnone k Hk) as (_ & H1 & H2). split; assumption.
Defined.

(** (LONDON, Culture) and (london, culture) give the same fact. *)
Lemma get_travel_info_ignores_case_witness :
  Run.lower_text (lit "LONDON") = Run.lower_text (lit "london") /\
  Run.lower_text (lit "Culture") = Run.lower_text (lit "culture") /\
  Run.travel_info (PStr (lit "LONDON")) (PStr (lit "Culture")) =
    (Ret (success_result
            (lit "For Culture in LONDON: A culture of politeness, orderly queues, afternoon tea, and pub culture. Greet with 'excuse me' or 'sorry' when interacting. Respect personal space.")),
     tt) /\
  Run.travel_info (PStr (lit "london")) (PStr (lit "culture")) =
    (Ret (success_result
            (lit "For culture in london: A culture of politeness, orderly queues, afternoon tea, and pub culture. Greet with 'excuse me' or 'sorry' when interacting. Respect personal space.")),
     tt).
Proof.
  do 3 (split; [reflexivity|]).
  etransitivity; [|reflexivity].
  apply (proj1 (@get_travel_info_ignores_case unit Sample.unicode_lower Sample.py_repr
                  Sample.failure_text)
           (lit "LONDON") (lit "london") (lit "Culture") (lit "culture")
           (lit "A culture of politeness, orderly queues, afternoon tea, and pub culture. Greet with 'excuse me' or 'sorry' when interacting. Respect personal space.")
           tt); reflexivity.
Defined.
